(** * Access-gated audio relay: server/server.js and server/config.js

    A shallow embedding of the Express/WebSocket server: the subnet check
    [isOnCorrectNetwork], the HTTP gate [requireNetworkAccess], the route
    table of [app], the WebSocket upgrade gate and the UDP relay.

    Conventions.
    - JavaScript strings are [string], a non-ASCII character standing as
      the bytes of its UTF-8 encoding; [undefined] is [None].
    - A handler that can throw returns [option]: [None] is the uncaught
      [TypeError], which Express turns into a 500 response.
    - Library middleware whose code is not part of the repository (helmet,
      express.json, express.urlencoded, express-session, express.static) is
      taken at its documented behaviour: the request reaches the route table
      with [req.body] parsed and [req.session] loaded. *)

From Stdlib Require Import String Ascii List Bool Arith ZArith Lia.
Import ListNotations.
Open Scope string_scope.
Open Scope list_scope.

(* ================================================================== *)
(** ** JavaScript string primitives used by the server *)
(* ================================================================== *)

Module Js.

(** [s.startsWith(p)] *)
Fixpoint startsWith (p s : string) : bool :=
  match p with
  | EmptyString => true
  | String a p' =>
      match s with
      | EmptyString => false
      | String b s' => Ascii.eqb a b && startsWith p' s'
      end
  end.

(** [s.slice(n)] for [0 <= n] *)
Fixpoint drop (n : nat) (s : string) : string :=
  match n with
  | O => s
  | S n' => match s with
            | EmptyString => EmptyString
            | String _ s' => drop n' s'
            end
  end.

(** [s.replace(pat, rep)] with a string pattern: only the first occurrence
    of [pat] is replaced.  ([rep] is used below only as the empty string, so
    the dollar patterns of the replacement text play no role.) *)
Fixpoint replace (pat rep s : string) : string :=
  if startsWith pat s then (rep ++ drop (String.length pat) s)%string
  else match s with
       | EmptyString => EmptyString
       | String c s' => String c (replace pat rep s')
       end.

(** [s.split(sep)] for a one-character separator.  The result is never
    empty: splitting the empty string gives one empty component. *)
Fixpoint split (sep : ascii) (s : string) : list string :=
  match s with
  | EmptyString => [EmptyString]
  | String c s' =>
      if Ascii.eqb c sep then EmptyString :: split sep s'
      else match split sep s' with
           | [] => [String c EmptyString]
           | p :: ps => String c p :: ps
           end
  end.

(** [a === b] on values that are a string or [undefined] *)
Definition strictEq (a b : option string) : bool :=
  match a, b with
  | Some x, Some y => String.eqb x y
  | None, None => true
  | _, _ => false
  end.

(** [a || b] on values that are a string or [undefined]: the empty string
    is falsy. *)
Definition orElse (a b : option string) : option string :=
  match a with
  | Some EmptyString => b
  | Some s => Some s
  | None => b
  end.

(** ASCII part of [s.toLowerCase()] *)
Definition lowerAscii (c : ascii) : ascii :=
  let n := nat_of_ascii c in
  if ((65 <=? n) && (n <=? 90))%nat then ascii_of_nat (n + 32) else c.

Fixpoint toLowerCase (s : string) : string :=
  match s with
  | EmptyString => EmptyString
  | String c s' => String (lowerAscii c) (toLowerCase s')
  end.

(** White space skipped by [parseInt]: the ASCII characters ... *)
Definition isSpace (c : ascii) : bool :=
  let n := nat_of_ascii c in
  ((n =? 32) || ((9 <=? n) && (n <=? 13)))%nat.

(** ... and, in the UTF-8 bytes of the text, U+00A0 ... *)
Definition isSpace2 (c1 c2 : ascii) : bool :=
  ((nat_of_ascii c1 =? 194) && (nat_of_ascii c2 =? 160))%nat.

(** ... and U+1680, U+2000 to U+200A, U+2028, U+2029, U+202F, U+205F,
    U+3000 and U+FEFF. *)
Definition isSpace3 (c1 c2 c3 : ascii) : bool :=
  let a := nat_of_ascii c1 in
  let b := nat_of_ascii c2 in
  let c := nat_of_ascii c3 in
  (((a =? 225) && (b =? 154) && (c =? 128)) ||
   ((a =? 226) && (b =? 128) &&
    (((128 <=? c) && (c <=? 138)) || (c =? 168) || (c =? 169) || (c =? 175))) ||
   ((a =? 226) && (b =? 129) && (c =? 159)) ||
   ((a =? 227) && (b =? 128) && (c =? 128)) ||
   ((a =? 239) && (b =? 187) && (c =? 191)))%nat.

Definition digitVal (c : ascii) : option Z :=
  let n := nat_of_ascii c in
  if ((48 <=? n) && (n <=? 57))%nat then Some (Z.of_nat (n - 48))
  else if ((97 <=? n) && (n <=? 102))%nat then Some (Z.of_nat (n - 87))
  else if ((65 <=? n) && (n <=? 70))%nat then Some (Z.of_nat (n - 55))
  else None.

Fixpoint skipSpaces (s : string) : string :=
  match s with
  | EmptyString => EmptyString
  | String c1 s1 =>
      if isSpace c1 then skipSpaces s1
      else
        match s1 with
        | String c2 s2 =>
            if isSpace2 c1 c2 then skipSpaces s2
            else
              match s2 with
              | String c3 s3 => if isSpace3 c1 c2 c3 then skipSpaces s3 else s
              | EmptyString => s
              end
        | EmptyString => s
        end
  end.

(** Longest prefix of digits of the radix, read left to right; [None] when
    there is no digit at all. *)
Fixpoint readDigits (radix : Z) (acc : option Z) (s : string) : option Z :=
  match s with
  | EmptyString => acc
  | String c s' =>
      match digitVal c with
      | Some d =>
          if (d <? radix)%Z
          then readDigits radix
                 (Some (match acc with Some a => a * radix + d | None => d end)%Z) s'
          else acc
      | None => acc
      end
  end.

(** [parseInt(s)] with no radix argument; [None] is [NaN]. *)
Definition parseInt (s : string) : option Z :=
  let s1 := skipSpaces s in
  let '(neg, s2) :=
    match s1 with
    | String "-" r => (true, r)
    | String "+" r => (false, r)
    | _ => (false, s1)
    end in
  let '(radix, s3) :=
    match s2 with
    | String "0" (String "x" r) => (16%Z, r)
    | String "0" (String "X" r) => (16%Z, r)
    | _ => (10%Z, s2)
    end in
  match readDigits radix None s3 with
  | Some v => Some (if neg then (- v)%Z else v)
  | None => None
  end.

(** [parseInt(x)] where [x] may be [undefined]: the argument is first
    converted to the string "undefined", which has no digit. *)
Definition parseIntOpt (x : option string) : option Z :=
  match x with
  | Some s => parseInt s
  | None => None
  end.

End Js.

(* ================================================================== *)
(** ** config.js *)
(* ================================================================== *)

(** The environment variables the configuration reads *)
Record Env := {
  DEPLOYMENT_MODE : option string;
  ENV_PORT : option string;
  SERVER_URL : option string;
  HTTPS_ENABLED : option string;
  HTTPS_PORT : option string
}.

(** The [config] object, one field per leaf of the nested literal.
    Ports that come from [process.env.X || number] are kept as the text
    they print as in a template literal. *)
Record Config := {
  deployment_mode : string;
  wifi_ssid : string;
  wifi_password : string;
  wifi_hidden : bool;
  session_secret : string;
  session_name : string;
  session_cookieMaxAge : Z;
  admin_password : string;
  server_port : string;
  server_serverIp : option string;
  server_esp32Ip : string;
  server_udpPort : Z;
  server_https_enabled : bool;
  server_https_port : string
}.

Definition orDefault (a : option string) (d : string) : string :=
  match Js.orElse a (Some d) with
  | Some s => s
  | None => d
  end.

Definition config (env : Env) : Config := {|
  deployment_mode := orDefault (DEPLOYMENT_MODE env) "local";
  wifi_ssid := "Pathum";
  wifi_password := "PATHUM@@123";
  wifi_hidden := false;
  session_secret := "change-this-secret-key-in-production";
  session_name := "audio_stream_session";
  session_cookieMaxAge := (24 * 60 * 60 * 1000)%Z;
  admin_password := "admin123";
  server_port := orDefault (ENV_PORT env) "10000";
  server_serverIp := Js.orElse (SERVER_URL env) None;
  server_esp32Ip := "192.168.1.25";
  server_udpPort := 5005%Z;
  (* process.env.HTTPS_ENABLED === 'true' || true *)
  server_https_enabled :=
    Js.strictEq (HTTPS_ENABLED env) (Some "true") || true;
  server_https_port := orDefault (HTTPS_PORT env) "8443"
|}.

(* ================================================================== *)
(** ** Network detection: getServerIP *)
(* ================================================================== *)

(** One entry of [os.networkInterfaces()[name]] *)
Record NetworkInterfaceInfo := {
  family : string;
  internal : bool;
  address : string
}.

(** [os.networkInterfaces()]: interface names in key order, each with its
    addresses. *)
Definition NetworkInterfaces := list (string * list NetworkInterfaceInfo).

Definition numEq (a : option Z) (n : Z) : bool :=
  match a with Some v => (v =? n)%Z | None => false end.

Definition numBetween (a : option Z) (lo hi : Z) : bool :=
  match a with Some v => (lo <=? v)%Z && (v <=? hi)%Z | None => false end.

(** The body of the inner loop: [Some ip] when the address is returned *)
Definition privateAddress (iface : NetworkInterfaceInfo) : option string :=
  if String.eqb (family iface) "IPv4" && negb (internal iface) then
    let ip := address iface in
    let parts := Js.split "." ip in
    let firstOctet := Js.parseIntOpt (nth_error parts 0) in
    let secondOctet := Js.parseIntOpt (nth_error parts 1) in
    if numEq firstOctet 192 && numEq secondOctet 168 then Some ip
    else if numEq firstOctet 10 then Some ip
    else if numEq firstOctet 172 && numBetween secondOctet 16 31 then Some ip
    else None
  else None.

Fixpoint firstPrivate (ifaces : list NetworkInterfaceInfo) : option string :=
  match ifaces with
  | [] => None
  | i :: rest =>
      match privateAddress i with
      | Some ip => Some ip
      | None => firstPrivate rest
      end
  end.

Fixpoint scanInterfaces (interfaces : NetworkInterfaces) : option string :=
  match interfaces with
  | [] => None
  | (_, ifaces) :: rest =>
      match firstPrivate ifaces with
      | Some ip => Some ip
      | None => scanInterfaces rest
      end
  end.

Definition getServerIP (interfaces : NetworkInterfaces) : string :=
  match scanInterfaces interfaces with
  | Some ip => ip
  | None => "0.0.0.0"
  end.

(** The module-level constants of server.js, fixed when the module loads:
    [SERVER_IP = getServerIP()], [PORT = config.server.port],
    [ESP32_IP = config.server.esp32Ip], [UDP_PORT = config.server.udpPort]. *)
Record Server := {
  cfg : Config;
  SERVER_IP : string;
  PORT : string;
  ESP32_IP : string;
  UDP_PORT : Z
}.

Definition startServer (c : Config) (interfaces : NetworkInterfaces) : Server := {|
  cfg := c;
  SERVER_IP := getServerIP interfaces;
  PORT := server_port c;
  ESP32_IP := server_esp32Ip c;
  UDP_PORT := server_udpPort c
|}.

(* ================================================================== *)
(** ** Requests, sessions, responses *)
(* ================================================================== *)

(** [req.session]: the fields the server reads and writes.  A field that
    was never set is [undefined], which is falsy: [false] / [None]. *)
Record Session := {
  authenticated : bool;
  connectedAt : option string;
  adminAuthenticated : bool
}.

(** The parts of an Express request the handlers read.
    [req_ip] is [req.ip], [req_remoteAddress] is
    [req.connection.remoteAddress] (undefined once the socket is destroyed),
    [req_host] is [req.get('host')], [req_password] is [req.body.password],
    [req_now] is what [new Date().toISOString()] returns while the request
    is handled, and [req_qrRejects text] tells whether a call
    [QRCode.toDataURL(text, ...)] made while the request is handled rejects
    (the qrcode library is not part of the repository). *)
Record Request := {
  req_method : string;
  req_path : string;
  req_ip : option string;
  req_remoteAddress : option string;
  req_protocol : option string;
  req_host : option string;
  req_password : option string;
  req_session : option Session;
  req_now : string;
  req_qrRejects : string -> bool
}.

Inductive JsonValue :=
| JStr (s : string)
| JBool (b : bool)
| JQrCode (text : string).   (* the data URL QRCode.toDataURL makes of [text] *)

Inductive Response :=
| Send (status : nat) (body : string)                       (* res.status(n).send(body) *)
| Json (status : nat) (body : list (string * JsonValue))    (* res.status(n).json(obj) *)
| Redirect (status : nat) (url : string)                    (* res.redirect(n, url) *)
| StaticFile                                                (* express.static / sendFile *)
| NotFound                                                  (* no route matched: 404 *)
| ServerError                                               (* a handler threw: 500 *)
| BadRequest                                                (* the path does not decode: 400 *)
| Options (allow : list string).                            (* automatic answer to OPTIONS: 200, Allow *)

(** What a middleware or route handler did with a request: called [next()],
    sent a response without calling [next()], or threw.  [sess] is
    [req.session] as the handler left it. *)
Inductive Outcome :=
| Next (sess : option Session)
| Respond (res : Response) (sess : option Session)
| Throw.

Definition dq : string := String (ascii_of_nat 34) EmptyString.
Definition nl : string := String (ascii_of_nat 10) EmptyString.
Definition cr : string := String (ascii_of_nat 13) EmptyString.

(* ================================================================== *)
(** ** Network validation: isOnCorrectNetwork *)
(* ================================================================== *)

(** [req.ip || req.connection.remoteAddress] *)
Definition clientIPOf (req : Request) : option string :=
  Js.orElse (req_ip req) (req_remoteAddress req).

(** [clientIP.replace('::ffff:', '')]: the address the checks look at *)
Definition extractIP (clientIP : string) : string :=
  Js.replace "::ffff:" "" clientIP.

(** [ip === '127.0.0.1' || ip === '::1' || ip === 'localhost'] *)
Definition isLocalhost (ip : string) : bool :=
  String.eqb ip "127.0.0.1" || String.eqb ip "::1" || String.eqb ip "localhost".

(** The [sameSubnet] constant: the first three components are [===] *)
Definition sameSubnet (clientParts serverParts : list string) : bool :=
  Js.strictEq (nth_error clientParts 0) (nth_error serverParts 0) &&
  Js.strictEq (nth_error clientParts 1) (nth_error serverParts 1) &&
  Js.strictEq (nth_error clientParts 2) (nth_error serverParts 2).

(** The local-mode part of the check, on the resolved [clientIP] *)
Definition checkSubnet (SERVER_IP clientIP : string) : bool :=
  let ip := extractIP clientIP in
  if isLocalhost ip then true
  else
    let clientParts := Js.split "." ip in
    let serverParts := Js.split "." SERVER_IP in
    if (length clientParts =? 4)%nat && (length serverParts =? 4)%nat then
      if sameSubnet clientParts serverParts then true else false
    else false.

(** [isOnCorrectNetwork(req)].  [None]: [clientIP] is undefined and
    [clientIP.replace] throws. *)
Definition isOnCorrectNetwork (srv : Server) (req : Request) : option bool :=
  if String.eqb (deployment_mode (cfg srv)) "public" then Some true
  else
    match clientIPOf req with
    | None => None
    | Some clientIP => Some (checkSubnet (SERVER_IP srv) clientIP)
    end.

(* ================================================================== *)
(** ** The HTTP gate: requireNetworkAccess *)
(* ================================================================== *)

(** The template literal of the 403 page, up to the SSID *)
Definition denialPageHead : string :=
  String.concat nl [
    "";
    "            <!DOCTYPE html>";
    "            <html>";
    "            <head>";
    "                <title>Access Denied</title>";
    "                <style>";
    "                    body {";
    "                        font-family: Arial, sans-serif;";
    "                        display: flex;";
    "                        align-items: center;";
    "                        justify-content: center;";
    "                        min-height: 100vh;";
    "                        margin: 0;";
    "                        background: linear-gradient(135deg, #667eea 0%, #764ba2 100%);";
    "                    }";
    "                    .container {";
    "                        background: white;";
    "                        padding: 40px;";
    "                        border-radius: 10px;";
    "                        box-shadow: 0 10px 25px rgba(0,0,0,0.2);";
    "                        text-align: center;";
    "                        max-width: 500px;";
    "                    }";
    "                    h1 { color: #f44336; margin-bottom: 20px; }";
    "                    p { color: #666; line-height: 1.6; }";
    "                    .icon { font-size: 60px; margin-bottom: 20px; }";
    "                    .instructions {";
    "                        background: #fff3cd;";
    "                        padding: 15px;";
    "                        border-radius: 8px;";
    "                        margin-top: 20px;";
    "                        text-align: left;";
    "                        border-left: 4px solid #ffc107;";
    "                    }";
    "                </style>";
    "            </head>";
    "            <body>";
    ("                <div class=" ++ dq ++ "container" ++ dq ++ ">")%string;
    ("                    <div class=" ++ dq ++ "icon" ++ dq ++ ">🚫</div>")%string;
    "                    <h1>Access Denied</h1>";
    "                    <p>You must be connected to the <strong>"
  ].

(** ... between the SSID and the deployment mode *)
Definition denialPageMid : string :=
  String.concat nl [
    "</strong> WiFi network to access this site.</p>";
    ("                    <p style=" ++ dq ++ "color: #999; font-size: 12px; margin-top: 10px;" ++ dq ++ ">Deployment Mode: ")%string
  ].

(** ... and after the deployment mode *)
Definition denialPageTail : string :=
  String.concat nl [
    "</p>";
    ("                    <div class=" ++ dq ++ "instructions" ++ dq ++ ">")%string;
    "                        <h3>How to Connect:</h3>";
    "                        <ol>";
    "                            <li>Scan the QR code provided</li>";
    "                            <li>Connect to the WiFi network</li>";
    "                            <li>Return to this page</li>";
    "                        </ol>";
    "                    </div>";
    "                </div>";
    "            </body>";
    "            </html>";
    "        "
  ].
(** The page sent with status 403: the template literal with its two
    interpolations, [config.wifi.ssid] and [config.deployment.mode]. *)
Definition denialPage (ssid mode : string) : string :=
  (denialPageHead ++ ssid ++ denialPageMid ++ mode ++ denialPageTail)%string.

Definition requireNetworkAccess (srv : Server) (req : Request) : Outcome :=
  match isOnCorrectNetwork srv req with
  | None => Throw
  | Some true =>
      match req_session req with
      | None => Throw                      (* req.session.authenticated *)
      | Some s =>
          if negb (authenticated s) then
            Next (Some {| authenticated := true;
                          connectedAt := Some (req_now req);
                          adminAuthenticated := adminAuthenticated s |})
          else Next (Some s)
      end
  | Some false =>
      Respond
        (Send 403 (denialPage (wifi_ssid (cfg srv)) (deployment_mode (cfg srv))))
        (req_session req)
  end.

(** [requireAuth] (defined in server.js, mounted on no route) *)
Definition requireAuth (req : Request) : Outcome :=
  match req_session req with
  | Some s =>
      if authenticated s then Next (Some s)
      else Respond (Json 401 [("error", JStr "Unauthorized. Please connect to WiFi.")]) (Some s)
  | None =>
      Respond (Json 401 [("error", JStr "Unauthorized. Please connect to WiFi.")]) None
  end.

(* ================================================================== *)
(** ** Routes *)
(* ================================================================== *)

(** Express route matching with the default settings: the path is compared
    without regard to case and one trailing slash is optional. *)
Definition pathMatches (route p : string) : bool :=
  let q := Js.toLowerCase p in
  String.eqb q route || String.eqb q (route ++ "/").

(** [app.get(route, ...)] also answers HEAD requests. *)
Definition matchesGet (route : string) (req : Request) : bool :=
  (String.eqb (req_method req) "GET" || String.eqb (req_method req) "HEAD")
  && pathMatches route (req_path req).

Definition matchesPost (route : string) (req : Request) : bool :=
  String.eqb (req_method req) "POST" && pathMatches route (req_path req).

(** A template literal prints [undefined] as the word. *)
Definition show (x : option string) : string :=
  match x with Some s => s | None => "undefined" end.

(** [getServerUrl(req)] *)
Definition getServerUrl (srv : Server) (req : Request) : string :=
  if negb (String.eqb (SERVER_IP srv) "0.0.0.0") then
    if server_https_enabled (cfg srv)
    then "https://" ++ SERVER_IP srv ++ ":" ++ server_https_port (cfg srv)
    else "http://" ++ SERVER_IP srv ++ ":" ++ PORT srv
  else
    let protocol := show (Js.orElse (req_protocol req) (Some "http")) in
    protocol ++ "://" ++ show (req_host req).

(** [app.post('/api/login')] *)
Definition login (srv : Server) (req : Request) : Outcome :=
  match req_session req with
  | None => Throw
  | Some s =>
      Respond
        (Json 200 [("success", JBool true);
                   ("message", JStr "Successfully authenticated!");
                   ("ssid", JStr (wifi_ssid (cfg srv)))])
        (Some {| authenticated := true;
                 connectedAt := Some (req_now req);
                 adminAuthenticated := adminAuthenticated s |})
  end.

(** [app.post('/api/logout')]; the session store is the in-memory default,
    whose [destroy] reports no error. *)
Definition logout (req : Request) : Outcome :=
  match req_session req with
  | None => Throw
  | Some _ => Respond (Json 200 [("success", JBool true)]) None
  end.

(** [app.get('/api/auth-status')] *)
Definition authStatus (req : Request) : Outcome :=
  match req_session req with
  | None => Respond (Json 200 []) None
  | Some s => Respond (Json 200 [("authenticated", JBool (authenticated s))]) (Some s)
  end.

(** [app.post('/api/admin/login')] *)
Definition adminLogin (srv : Server) (req : Request) : Outcome :=
  if Js.strictEq (req_password req) (Some (admin_password (cfg srv))) then
    match req_session req with
    | None => Throw
    | Some s =>
        Respond (Json 200 [("success", JBool true)])
                (Some {| authenticated := authenticated s;
                         connectedAt := connectedAt s;
                         adminAuthenticated := true |})
    end
  else
    Respond (Json 401 [("success", JBool false);
                       ("error", JStr "Invalid admin password")])
            (req_session req).

(** [app.get('/api/admin/qr-code')]; what the two [QRCode.toDataURL] calls
    resolve to is kept symbolic, and when one of them rejects the [catch]
    answers 500. *)
Definition adminQrCode (srv : Server) (req : Request) : Outcome :=
  match req_session req with
  | Some s =>
      if adminAuthenticated s then
        let serverUrl := getServerUrl srv req in
        let wifiString :=
          ("WIFI:T:WPA;S:" ++ wifi_ssid (cfg srv) ++ ";P:" ++ wifi_password (cfg srv)
           ++ ";H:" ++ (if wifi_hidden (cfg srv) then "true" else "false") ++ ";;")%string in
        if req_qrRejects req wifiString || req_qrRejects req serverUrl then
          Respond (Json 500 [("error", JStr "Failed to generate QR code")]) (Some s)
        else
        Respond (Json 200 [("wifiQrCode", JQrCode wifiString);
                           ("urlQrCode", JQrCode serverUrl);
                           ("ssid", JStr (wifi_ssid (cfg srv)));
                           ("password", JStr (wifi_password (cfg srv)));
                           ("url", JStr serverUrl)])
                (Some s)
      else Respond (Json 401 [("error", JStr "Admin authentication required")]) (Some s)
  | None => Respond (Json 401 [("error", JStr "Admin authentication required")]) None
  end.

(** The paths probed by phones and laptops when they join a network *)
Definition captivePortalPaths : list string :=
  ["/hotspot-detect.html"; "/generate_204"; "/gen_204"; "/ncsi.txt"; "/connecttest.txt"].

(** The routes that answer [res.redirect(302, getServerUrl(req))] *)
Definition redirectRoutes : list string := captivePortalPaths ++ ["/redirect"].

(** The [app.use] in front of the static files: "Apply network validation
    to all routes except admin and health". *)
Definition networkValidation (srv : Server) (req : Request) : Outcome :=
  if Js.startsWith "/api/admin" (req_path req) || String.eqb (req_path req) "/admin.html"
  then Next (req_session req)
  else requireNetworkAccess srv req.

(** Where [decodeURIComponent] stands in a percent-encoded UTF-8 sequence:
    at the start of a character, or with [more] continuation bytes due, the
    next of which must lie between [lo] and [hi]. *)
Inductive Utf8State :=
| Utf8Start
| Utf8Cont (more : nat) (lo hi : Z).

(** The state after the first byte of a character; [None]: no character
    starts with this byte. *)
Definition utf8Lead (b : Z) : option Utf8State :=
  (if b <? 128 then Some Utf8Start
   else if (194 <=? b) && (b <=? 223) then Some (Utf8Cont 1 128 191)
   else if b =? 224 then Some (Utf8Cont 2 160 191)
   else if b =? 237 then Some (Utf8Cont 2 128 159)
   else if (225 <=? b) && (b <=? 239) then Some (Utf8Cont 2 128 191)
   else if b =? 240 then Some (Utf8Cont 3 144 191)
   else if (241 <=? b) && (b <=? 243) then Some (Utf8Cont 3 128 191)
   else if b =? 244 then Some (Utf8Cont 3 128 143)
   else None)%Z.

Fixpoint decodesFrom (st : Utf8State) (s : string) : bool :=
  match s with
  | EmptyString => match st with Utf8Start => true | Utf8Cont _ _ _ => false end
  | String c rest =>
      if Ascii.eqb c "%" then
        match rest with
        | String h (String l rest') =>
            match Js.digitVal h, Js.digitVal l with
            | Some x, Some y =>
                let b := (16 * x + y)%Z in
                match st with
                | Utf8Start =>
                    match utf8Lead b with
                    | Some st' => decodesFrom st' rest'
                    | None => false
                    end
                | Utf8Cont more lo hi =>
                    if ((lo <=? b) && (b <=? hi))%Z then
                      decodesFrom
                        (match more with
                         | S (S m) => Utf8Cont (S m) 128 191
                         | _ => Utf8Start
                         end) rest'
                    else false
                end
            | _, _ => false
            end
        | _ => false
        end
      else
        match st with
        | Utf8Start => decodesFrom Utf8Start rest
        | Utf8Cont _ _ _ => false
        end
  end.

(** Whether [decodeURIComponent(s)] returns; it throws a URIError on a
    percent sign without two hex digits and on percent-encoded bytes that
    are not UTF-8. *)
Definition uriDecodes (s : string) : bool := decodesFrom Utf8Start s.

(** The router's [appendMethods]: add the methods not yet listed *)
Definition appendMethods (listed addition : list string) : list string :=
  fold_left (fun acc m => if existsb (String.eqb m) acc then acc else acc ++ [m])
            addition listed.

(** The routes of [app] in registration order with the methods each
    offers ([app.get] offers GET and HEAD) *)
Definition routeMethods : list (string * list string) :=
  [("/api/login", ["POST"]);
   ("/api/logout", ["POST"]);
   ("/api/auth-status", ["GET"; "HEAD"]);
   ("/api/admin/login", ["POST"]);
   ("/api/admin/qr-code", ["GET"; "HEAD"]);
   ("/health", ["GET"; "HEAD"])]
  ++ map (fun r => (r, ["GET"; "HEAD"])) redirectRoutes.

(** The Allow list Express gathers for an OPTIONS request: the methods of
    the routes whose path matches, then those of [app.get('*')] *)
Definition allowedMethods (path : string) : list string :=
  appendMethods
    (fold_left (fun acc r => if pathMatches (fst r) path
                             then appendMethods acc (snd r) else acc)
               routeMethods [])
    ["GET"; "HEAD"].

(** [express.static] followed by [app.get('*')], as Express routes them.
    The path is the parameter of the star route: when it does not decode,
    the router ends the request with 400, whatever the method.  Otherwise
    GET and HEAD get a page (a file of the website folder, or index.html),
    OPTIONS gets the automatic answer, and nothing else is routed. *)
Definition servePages (req : Request) (sess : option Session) : Outcome :=
  if negb (uriDecodes (req_path req)) then Respond BadRequest sess
  else if String.eqb (req_method req) "GET" || String.eqb (req_method req) "HEAD"
  then Respond StaticFile sess
  else if String.eqb (req_method req) "OPTIONS"
  then Respond (Options (allowedMethods (req_path req))) sess
  else Respond NotFound sess.

(** The route table of [app], in registration order. *)
Definition route (srv : Server) (req : Request) : Outcome :=
  if matchesPost "/api/login" req then login srv req
  else if matchesPost "/api/logout" req then logout req
  else if matchesGet "/api/auth-status" req then authStatus req
  else if matchesPost "/api/admin/login" req then adminLogin srv req
  else if matchesGet "/api/admin/qr-code" req then adminQrCode srv req
  else if matchesGet "/health" req then Respond (Send 200 "ok") (req_session req)
  else if existsb (fun r => matchesGet r req) redirectRoutes
       then Respond (Redirect 302 (getServerUrl srv req)) (req_session req)
  else
    match networkValidation srv req with
    | Next sess => servePages req sess
    | o => o
    end.

(** One request through [app]: the response and the session afterwards.
    A handler that throws ends in Express's error handler. *)
Definition app (srv : Server) (req : Request) : Response * option Session :=
  match route srv req with
  | Respond res sess => (res, sess)
  | Next sess => (NotFound, sess)
  | Throw => (ServerError, req_session req)
  end.

(* ================================================================== *)
(** ** WebSocket upgrade gate and UDP relay *)
(* ================================================================== *)

(** What the 'upgrade' listener does to the raw socket *)
Inductive UpgradeAction :=
| SocketWrite (text : string)     (* socket.write(text) *)
| SocketDestroy                   (* socket.destroy() *)
| HandleUpgrade.                  (* wss.handleUpgrade(...), whose callback emits 'connection' *)

Definition unauthorizedLine : string :=
  ("HTTP/1.1 401 Unauthorized" ++ cr ++ nl ++ cr ++ nl)%string.

(** The callback given to [sessionMiddleware] in [server.on('upgrade')];
    [sess] is [request.session] as the session middleware loaded it. *)
Definition onUpgrade (sess : option Session) : list UpgradeAction :=
  match sess with
  | None => [SocketWrite unauthorizedLine; SocketDestroy]
  | Some s =>
      if negb (authenticated s)
      then [SocketWrite unauthorizedLine; SocketDestroy]
      else [HandleUpgrade]
  end.

Definition isHandleUpgrade (a : UpgradeAction) : bool :=
  match a with HandleUpgrade => true | _ => false end.

(** A frame as the 'message' listener receives it: a Buffer *)
Definition Frame := list Byte.byte.

(** One call [udp.send(data, port, address)] *)
Record Datagram := {
  payload : Frame;
  port : Z;
  address_to : string
}.

(** Sockets are numbered.  [connections] are the sockets with a WebSocket
    object on which the 'message' listener is registered; [sent] lists the
    [udp.send] calls in call order, each tagged with the socket whose
    listener made it. *)
Record Relay := {
  connections : list nat;
  sent : list (nat * Datagram)
}.

Definition noRelay : Relay := {| connections := []; sent := [] |}.

Inductive Event :=
| Upgrade (sock : nat) (sess : option Session)        (* server 'upgrade' *)
| Message (sock : nat) (data : Frame) (isBinary : bool) (* ws 'message' *)
| Close (sock : nat)                                  (* ws 'close' *)
| Error (sock : nat).                                 (* ws 'error' *)

Definition hasListener (sock : nat) (r : Relay) : bool :=
  existsb (Nat.eqb sock) (connections r).

(** [ws.on('message', data => udp.send(data, UDP_PORT, ESP32_IP))] *)
Definition forward (srv : Server) (data : Frame) : Datagram :=
  {| payload := data; port := UDP_PORT srv; address_to := ESP32_IP srv |}.

Definition step (srv : Server) (r : Relay) (e : Event) : Relay :=
  match e with
  | Upgrade sock sess =>
      if existsb isHandleUpgrade (onUpgrade sess)
      then {| connections := sock :: connections r; sent := sent r |}
      else r
  | Message sock data _ =>
      (* an event on a socket without listener runs no handler *)
      if hasListener sock r
      then {| connections := connections r;
              sent := sent r ++ [(sock, forward srv data)] |}
      else r
  | Close sock =>
      {| connections := filter (fun k => negb (Nat.eqb sock k)) (connections r);
         sent := sent r |}
  | Error _ => r
  end.

Definition run (srv : Server) (r : Relay) (events : list Event) : Relay :=
  fold_left (step srv) events r.

(** The datagrams of one socket, in send order *)
Definition sentBy (sock : nat) (r : Relay) : list Datagram :=
  map snd (filter (fun p => Nat.eqb sock (fst p)) (sent r)).

(** The frames socket [sock] delivers in a list of events *)
Fixpoint framesOf (sock : nat) (events : list Event) : list Frame :=
  match events with
  | [] => []
  | Message k data _ :: rest =>
      if Nat.eqb sock k then data :: framesOf sock rest else framesOf sock rest
  | _ :: rest => framesOf sock rest
  end.

(* ================================================================== *)
(** ** Predicates used in the statements *)
(* ================================================================== *)

(** Number of occurrences of a character *)
Fixpoint countChar (c : ascii) (s : string) : nat :=
  match s with
  | EmptyString => 0
  | String a s' => (if Ascii.eqb a c then 1 else 0) + countChar c s'
  end.

(** [/^[0-9]*$/] *)
Fixpoint allDigits (s : string) : bool :=
  match s with
  | EmptyString => true
  | String a s' =>
      ((48 <=? nat_of_ascii a) && (nat_of_ascii a <=? 57))%nat && allDigits s'
  end.

(** An address that splits on the dot into exactly four components *)
Definition isDottedQuad (a : string) : Prop :=
  length (Js.split "." a) = 4.

(** The leading three components of two addresses are equal, one by one *)
Definition sameLeadingThree (a b : string) : Prop :=
  forall i, i < 3 -> nth_error (Js.split "." a) i = nth_error (Js.split "." b) i.

(** [a.b.c.d] *)
Definition dotted (a b c d : string) : string :=
  (a ++ "." ++ b ++ "." ++ c ++ "." ++ d)%string.

(** Deployment mode 'public' against any other value (the default is
    'local'): only the literal 'public' switches the check off. *)
Definition publicMode (srv : Server) : Prop :=
  deployment_mode (cfg srv) = "public".

(** The request is neither answered by a route registered before the
    network validation nor exempted by it, so [requireNetworkAccess] runs. *)
Definition reachesGate (req : Request) : bool :=
  negb (matchesPost "/api/login" req) &&
  negb (matchesPost "/api/logout" req) &&
  negb (matchesGet "/api/auth-status" req) &&
  negb (matchesPost "/api/admin/login" req) &&
  negb (matchesGet "/api/admin/qr-code" req) &&
  negb (matchesGet "/health" req) &&
  negb (existsb (fun r => matchesGet r req) redirectRoutes) &&
  negb (Js.startsWith "/api/admin" (req_path req) || String.eqb (req_path req) "/admin.html").

(** A request with the given method, path and client address, a fresh
    session and nothing else *)
Definition plainRequest (method path clientIP : string) : Request := {|
  req_method := method;
  req_path := path;
  req_ip := Some clientIP;
  req_remoteAddress := Some clientIP;
  req_protocol := Some "https";
  req_host := Some "example.test";
  req_password := None;
  req_session := Some {| authenticated := false; connectedAt := None;
                         adminAuthenticated := false |};
  req_now := "2025-01-01T00:00:00.000Z";
  req_qrRejects := fun _ => false
|}.

(** A server with the default configuration and the given address *)
Definition localServer (serverIP : string) : Server := {|
  cfg := config {| DEPLOYMENT_MODE := None; ENV_PORT := None; SERVER_URL := None;
                   HTTPS_ENABLED := None; HTTPS_PORT := None |};
  SERVER_IP := serverIP;
  PORT := "10000";
  ESP32_IP := "192.168.1.25";
  UDP_PORT := 5005
|}.

(** The same server in deployment mode 'public' *)
Definition publicServer (serverIP : string) : Server := {|
  cfg := config {| DEPLOYMENT_MODE := Some "public"; ENV_PORT := None;
                   SERVER_URL := None; HTTPS_ENABLED := None; HTTPS_PORT := None |};
  SERVER_IP := serverIP;
  PORT := "10000";
  ESP32_IP := "192.168.1.25";
  UDP_PORT := 5005
|}.

(** A host whose only addresses are the loopback and a public one *)
Definition publicHostInterfaces : NetworkInterfaces :=
  [("lo", [{| family := "IPv4"; internal := true; address := "127.0.0.1" |};
           {| family := "IPv6"; internal := true; address := "::1" |}]);
   ("eth0", [{| family := "IPv4"; internal := false; address := "203.0.113.7" |}])].


(** A session that was never authenticated *)
Definition freshSession : Session :=
  {| authenticated := false; connectedAt := None; adminAuthenticated := false |}.

(** The request with another transport address *)
Definition setClient (req : Request) (ip remoteAddress : option string) : Request := {|
  req_method := req_method req;
  req_path := req_path req;
  req_ip := ip;
  req_remoteAddress := remoteAddress;
  req_protocol := req_protocol req;
  req_host := req_host req;
  req_password := req_password req;
  req_session := req_session req;
  req_now := req_now req;
  req_qrRejects := req_qrRejects req
|}.

(** The request as the session middleware hands it over when the store
    holds [sess] for its cookie *)
Definition withSession (req : Request) (sess : option Session) : Request := {|
  req_method := req_method req;
  req_path := req_path req;
  req_ip := req_ip req;
  req_remoteAddress := req_remoteAddress req;
  req_protocol := req_protocol req;
  req_host := req_host req;
  req_password := req_password req;
  req_session := sess;
  req_now := req_now req;
  req_qrRejects := req_qrRejects req
|}.

(** The ways a private IPv4 address starts: 10/8, 192.168/16, 172.16/12 *)
Definition privatePrefixes : list string :=
  ["10."; "192.168.";
   "172.16."; "172.17."; "172.18."; "172.19."; "172.20."; "172.21.";
   "172.22."; "172.23."; "172.24."; "172.25."; "172.26."; "172.27.";
   "172.28."; "172.29."; "172.30."; "172.31."].

(** A non-internal IPv4 entry of [os.networkInterfaces()] *)
Definition isExternalIPv4 (iface : NetworkInterfaceInfo) : Prop :=
  family iface = "IPv4" /\ internal iface = false.

(** The octet test of [getServerIP] on the parsed first two components *)
Definition privateOctets (ip : string) : Prop :=
  let parts := Js.split "." ip in
  let firstOctet := Js.parseIntOpt (nth_error parts 0) in
  let secondOctet := Js.parseIntOpt (nth_error parts 1) in
  (firstOctet = Some 192%Z /\ secondOctet = Some 168%Z) \/
  firstOctet = Some 10%Z \/
  (firstOctet = Some 172%Z /\
   exists n, secondOctet = Some n /\ (16 <= n <= 31)%Z).

(** A session marked authenticated carries the time it was marked. *)
Definition sessionStamped (sess : option Session) : Prop :=
  match sess with
  | Some s => authenticated s = true -> connectedAt s <> None
  | None => True
  end.

(** A JSON entry that gives away the WiFi password: the password itself
    or a QR code *)
Definition revealsPassword (entry : string * JsonValue) : bool :=
  String.eqb (fst entry) "password" ||
  match snd entry with JQrCode _ => true | _ => false end.

Definition responseRevealsPassword (res : Response) : bool :=
  match res with
  | Json _ body => existsb revealsPassword body
  | _ => false
  end.

(** The event belongs to socket [sock] *)
Definition concerns (sock : nat) (e : Event) : bool :=
  match e with
  | Upgrade k _ => Nat.eqb sock k
  | Message k _ _ => Nat.eqb sock k
  | Close k => Nat.eqb sock k
  | Error k => Nat.eqb sock k
  end.

(** Number of 'message' events in a list *)
Fixpoint countMessages (events : list Event) : nat :=
  match events with
  | [] => 0
  | Message _ _ _ :: rest => S (countMessages rest)
  | _ :: rest => countMessages rest
  end.

(** Two relay states look the same from socket [sock] *)
Definition agreeOn (sock : nat) (r1 r2 : Relay) : Prop :=
  hasListener sock r1 = hasListener sock r2 /\ sentBy sock r1 = sentBy sock r2.

(* ================================================================== *)
(** ** server/generate-cert.js *)
(* ================================================================== *)

Module GenerateCert.

(** [s.includes(pat)] *)
Fixpoint includes (pat s : string) : bool :=
  if Js.startsWith pat s then true
  else match s with
       | EmptyString => false
       | String _ s' => includes pat s'
       end.

(** The certificate directory as the script sees it: whether something
    exists at its path ([fs.existsSync(CERT_DIR)]), and the text of key.pem
    and cert.pem when they exist. *)
Record Files := {
  certsDir : bool;
  keyPem : option string;
  certPem : option string
}.

(** How [exec] of the [openssl] command ends: the command exits with code
    0 and has written the two files (the texts given); the command fails,
    with what it printed on stderr; or [exec] itself rejects with another
    error (the shell cannot be started, the output buffer overflows), whose
    message is given. *)
Inductive ExecResult :=
| ExecDone (key cert : string)
| ExecFailed (stderr : string)
| ExecError (message : string).

(** What the script meets outside itself.  [mkdirSync]: [Some msg] when
    [fs.mkdirSync] throws an error with that message.  [generateKeyPairSync]:
    the pair (publicKey, privateKey), [None] when it throws.  [writeKey] and
    [writeCert]: whether [fs.writeFileSync] to key.pem and to cert.pem goes
    through (it throws when the directory path is a regular file or cannot
    be written to, or the disk is full). *)
Record World := {
  mkdirSync : option string;
  openssl : ExecResult;
  generateKeyPairSync : option (string * string);
  writeKey : bool;
  writeCert : bool
}.

(** [path.join], with the separator of POSIX *)
Definition CERT_DIR (dirname : string) : string := (dirname ++ "/certs")%string.
Definition KEY_FILE (dirname : string) : string := (CERT_DIR dirname ++ "/key.pem")%string.
Definition CERT_FILE (dirname : string) : string := (CERT_DIR dirname ++ "/cert.pem")%string.

Definition command (dirname : string) : string :=
  ("openssl req -x509 -newkey rsa:2048 -nodes " ++
   "-keyout " ++ dq ++ KEY_FILE dirname ++ dq ++
   " -out " ++ dq ++ CERT_FILE dirname ++ dq ++ " -days 365 " ++
   "-subj " ++ dq ++ "/C=US/ST=State/L=City/O=Organization/CN=localhost" ++ dq)%string.

(** The message of the error with which [exec] rejects when the command
    fails: the command line, then what the command printed on stderr *)
Definition execErrorMessage (cmd stderr : string) : string :=
  ("Command failed: " ++ cmd ++ nl ++ stderr)%string.

Definition isSome {A : Type} (x : option A) : bool :=
  match x with Some _ => true | None => false end.

(** [fs.existsSync(KEY_FILE)] and [fs.existsSync(CERT_FILE)] *)
Definition existsKey (f : Files) : bool := certsDir f && isSome (keyPem f).
Definition existsCert (f : Files) : bool := certsDir f && isSome (certPem f).

(** [createSimpleCert()]: the private key is written first, then the
    public key; a write that throws (always so when nothing exists at the
    directory path) is caught and the answer is [false], with what was
    written before left in place. *)
Definition createSimpleCert (w : World) (f : Files) : bool * Files :=
  match generateKeyPairSync w with
  | None => (false, f)
  | Some (publicKey, privateKey) =>
      if certsDir f && writeKey w then
        let f1 := {| certsDir := true;
                     keyPem := Some privateKey;
                     certPem := certPem f |} in
        if writeCert w
        then (true, {| certsDir := true;
                       keyPem := Some privateKey;
                       certPem := Some publicKey |})
        else (false, f1)
      else (false, f)
  end.

(** The [catch] block of [generateCertificate] *)
Definition onError (w : World) (message : string) (f : Files) : bool * Files :=
  if includes "openssl" message then createSimpleCert w f
  else (false, f).

(** [generateCertificate()]: the value it resolves to and the files
    afterwards *)
Definition generateCertificate (dirname : string) (w : World) (f : Files)
  : bool * Files :=
  let afterMkdir :=
    if negb (certsDir f) then
      match mkdirSync w with
      | Some message => inl message
      | None => inr {| certsDir := true; keyPem := None; certPem := None |}
      end
    else inr f in
  match afterMkdir with
  | inl message => onError w message f
  | inr f1 =>
      if existsKey f1 && existsCert f1 then (true, f1)
      else
        match openssl w with
        | ExecDone key cert =>
            (true, {| certsDir := true; keyPem := Some key; certPem := Some cert |})
        | ExecFailed stderr =>
            onError w (execErrorMessage (command dirname) stderr) f1
        | ExecError message => onError w message f1
        end
  end.

End GenerateCert.

(** Among the events there is an upgrade attempt on socket [sock] whose
    request carried an authenticated session *)
Definition upgradedIn (sock : nat) (events : list Event) : Prop :=
  exists s, In (Upgrade sock (Some s)) events /\ authenticated s = true.

(** The response is the 403 with some page *)
Definition isForbidden (res : Response) : bool :=
  match res with
  | Send 403 _ => true
  | _ => false
  end.

(** The claim's "loopback address", for comparison with the test the code
    makes ([isLocalhost]): an address of the IPv4 loopback block
    127.0.0.0/8, that is a dotted quad whose first component is 127, or the
    IPv6 loopback ::1. *)
Definition isLoopbackAddress (a : string) : bool :=
  String.eqb a "::1" ||
  match Js.split "." a with
  | [first; _; _; _] => String.eqb first "127"
  | _ => false
  end.

(** A server with the default configuration but for DEPLOYMENT_MODE *)
Definition serverInMode (mode serverIP : string) : Server := {|
  cfg := config {| DEPLOYMENT_MODE := Some mode; ENV_PORT := None;
                   SERVER_URL := None; HTTPS_ENABLED := None; HTTPS_PORT := None |};
  SERVER_IP := serverIP;
  PORT := "10000";
  ESP32_IP := "192.168.1.25";
  UDP_PORT := 5005
|}.

(* ================================================================== *)
(** ** Facts about the string primitives *)
(* ================================================================== *)

Section StringFacts.
Lemma strictEq_true (a b : option string) :
  Js.strictEq a b = true <-> a = b.
Proof.
  destruct a as [x|], b as [y|]; simpl; split; intro H;
    try discriminate; try reflexivity.
  - apply String.eqb_eq in H. now subst.
  - injection H as ->. apply String.eqb_refl.
Qed.

Lemma replace_eq (pat rep s : string) :
  Js.replace pat rep s =
  if Js.startsWith pat s then (rep ++ Js.drop (String.length pat) s)%string
  else match s with
       | EmptyString => EmptyString
       | String c s' => String c (Js.replace pat rep s')
       end.
Proof. destruct s; reflexivity. Qed.

Lemma startsWith_drop (p s : string) :
  Js.startsWith p s = true -> s = (p ++ Js.drop (String.length p) s)%string.
Proof.
  revert s. induction p as [|a p IH]; intros s H; simpl in *.
  - reflexivity.
  - destruct s as [|b s]; [discriminate|].
    apply andb_prop in H as [Hab Hp].
    apply Ascii.eqb_eq in Hab. subst b.
    simpl. f_equal. now apply IH.
Qed.

Lemma string_app_assoc (a b c : string) :
  ((a ++ b) ++ c)%string = (a ++ b ++ c)%string.
Proof.
  induction a as [|x a IH]; simpl; [reflexivity|]. now rewrite IH.
Qed.

Lemma countChar_app (c : ascii) (s t : string) :
  countChar c (s ++ t) = countChar c s + countChar c t.
Proof.
  induction s as [|a s IH]; simpl; [reflexivity|].
  rewrite IH. lia.
Qed.

Lemma split_length (c : ascii) (s : string) :
  length (Js.split c s) = S (countChar c s).
Proof.
  induction s as [|a s IH]; simpl; [reflexivity|].
  destruct (Ascii.eqb a c); simpl.
  - now rewrite IH.
  - destruct (Js.split c s); simpl in *; [discriminate|assumption].
Qed.

Lemma countChar_drop_prefix (c : ascii) (pat s : string) :
  countChar c pat = 0 ->
  Js.startsWith pat s = true ->
  countChar c (Js.drop (String.length pat) s) = countChar c s.
Proof.
  intros Hpat E.
  assert (H : countChar c s = countChar c (pat ++ Js.drop (String.length pat) s))
    by (f_equal; now apply startsWith_drop).
  rewrite countChar_app, Hpat in H. now rewrite H.
Qed.

(** Removing the first occurrence of a pattern that does not contain [c]
    leaves the number of [c] unchanged. *)
Lemma countChar_replace (c : ascii) (pat s : string) :
  countChar c pat = 0 ->
  countChar c (Js.replace pat "" s) = countChar c s.
Proof.
  intros Hpat. induction s as [|a s IH]; rewrite replace_eq.
  - destruct (Js.startsWith pat "") eqn:E; [|reflexivity].
    now apply countChar_drop_prefix.
  - destruct (Js.startsWith pat (String a s)) eqn:E.
    + now apply countChar_drop_prefix.
    + simpl. now rewrite IH.
Qed.

Lemma extractIP_split_length (clientIP : string) :
  length (Js.split "." (extractIP clientIP)) = length (Js.split "." clientIP).
Proof.
  rewrite !split_length. unfold extractIP.
  now rewrite countChar_replace.
Qed.

(** The prefix is removed when the address starts with it ... *)
Lemma extractIP_mapped (rest : string) :
  extractIP ("::ffff:" ++ rest) = rest.
Proof. reflexivity. Qed.

(** ... and an address without a colon is left as it is. *)
Lemma extractIP_noColon (s : string) :
  countChar ":" s = 0 -> extractIP s = s.
Proof.
  unfold extractIP. induction s as [|a s IH]; intros H.
  - reflexivity.
  - rewrite replace_eq. simpl in H.
    destruct (Ascii.eqb a ":") eqn:E; [discriminate|].
    assert (F : Js.startsWith "::ffff:" (String a s) = false).
    { cbn [Js.startsWith]. rewrite Ascii.eqb_sym, E. reflexivity. }
    rewrite F. f_equal. apply IH. exact H.
Qed.

Lemma allDigits_noColon (s : string) :
  allDigits s = true -> countChar ":" s = 0.
Proof.
  induction s as [|a s IH]; simpl; intros H; [reflexivity|].
  apply andb_prop in H as [Ha Hs]. rewrite (IH Hs).
  destruct (Ascii.eqb a ":") eqn:E; [|reflexivity].
  apply Ascii.eqb_eq in E. subst a. discriminate.
Qed.

End StringFacts.

(* ================================================================== *)
(** ** The subnet check *)
(* ================================================================== *)

Section SubnetCheck.

Lemma nth_error_lt3 (A : Type) (l m : list A) :
  (forall i, i < 3 -> nth_error l i = nth_error m i) <->
  nth_error l 0 = nth_error m 0 /\
  nth_error l 1 = nth_error m 1 /\
  nth_error l 2 = nth_error m 2.
Proof.
  split.
  - intros H. repeat split; apply H; lia.
  - intros (H0 & H1 & H2) i Hi.
    destruct i as [|[|[|i]]]; try assumption; lia.
Qed.

Lemma sameSubnet_true (a b : string) :
  sameSubnet (Js.split "." a) (Js.split "." b) = true <-> sameLeadingThree a b.
Proof.
  unfold sameSubnet, sameLeadingThree.
  rewrite nth_error_lt3, !andb_true_iff, !strictEq_true. tauto.
Qed.

(** What the local-mode check computes, for every pair of strings *)
Lemma checkSubnet_true (serverIP clientIP : string) :
  checkSubnet serverIP clientIP = true <->
  isLocalhost (extractIP clientIP) = true \/
  (isDottedQuad (extractIP clientIP) /\ isDottedQuad serverIP /\
   sameLeadingThree (extractIP clientIP) serverIP).
Proof.
  unfold checkSubnet, isDottedQuad.
  destruct (isLocalhost (extractIP clientIP)); [tauto|].
  destruct (Nat.eqb_spec (length (Js.split "." (extractIP clientIP))) 4) as [Ec|Ec];
  destruct (Nat.eqb_spec (length (Js.split "." serverIP)) 4) as [Es|Es]; simpl.
  - destruct (sameSubnet _ _) eqn:E.
    + apply sameSubnet_true in E. tauto.
    + split; [discriminate|]. intros [H|(_ & _ & H)]; [discriminate|].
      apply sameSubnet_true in H. congruence.
  - split; [discriminate|]. intros [H|(_ & H & _)]; [discriminate|contradiction].
  - split; [discriminate|]. intros [H|(H & _ & _)]; [discriminate|contradiction].
  - split; [discriminate|]. intros [H|(H & _ & _)]; [discriminate|contradiction].
Qed.

Lemma isOnCorrectNetwork_local (srv : Server) (req : Request) (clientIP : string) :
  ~ publicMode srv ->
  clientIPOf req = Some clientIP ->
  isOnCorrectNetwork srv req = Some (checkSubnet (SERVER_IP srv) clientIP).
Proof.
  unfold publicMode, isOnCorrectNetwork. intros Hm Hc.
  destruct (String.eqb_spec (deployment_mode (cfg srv)) "public"); [contradiction|].
  now rewrite Hc.
Qed.

End SubnetCheck.

(** The examples of the README and of the comments in the check *)
Example same_subnet_allowed :
  checkSubnet "192.168.8.101" "192.168.8.102" = true /\
  checkSubnet "192.168.1.100" "192.168.1.50" = true.
Proof. split; reflexivity. Qed.

Example other_subnet_denied :
  checkSubnet "192.168.8.101" "192.168.9.50" = false /\
  checkSubnet "192.168.8.101" "103.45.67.89" = false /\
  checkSubnet "192.168.1.100" "192.168.2.50" = false.
Proof. repeat split; reflexivity. Qed.

Example localhost_allowed :
  checkSubnet "192.168.8.101" "127.0.0.1" = true /\
  checkSubnet "192.168.8.101" "::1" = true /\
  checkSubnet "192.168.8.101" "::ffff:127.0.0.1" = true.
Proof. repeat split; reflexivity. Qed.

Example getServerIP_examples :
  getServerIP publicHostInterfaces = "0.0.0.0" /\
  getServerIP [("wlan0", [{| family := "IPv6"; internal := false; address := "fe80::1" |};
                          {| family := "IPv4"; internal := false; address := "172.20.1.5" |}])]
  = "172.20.1.5".
Proof. split; reflexivity. Qed.

(** C1, as stated, fails on the loopback half: 127.0.0.2 is a loopback
    address, and in local mode the check denies it (the server address is
    on another subnet).  The check knows three names only. *)
Lemma loopback_127_0_0_2_denied :
  let srv := localServer "192.168.8.101" in
  let req := plainRequest "GET" "/" "127.0.0.2" in
  ~ publicMode srv /\
  clientIPOf req = Some "127.0.0.2" /\
  isLoopbackAddress "127.0.0.2" = true /\
  isOnCorrectNetwork srv req = Some false.
Proof.
  split; [unfold publicMode; simpl; discriminate|].
  repeat split.
Qed.

(** C1, amended.  In local mode (any deployment mode other than 'public'),
    for every client address and every server address the check answers,
    and it answers allow exactly when the client address is one of the
    three texts 127.0.0.1, ::1, localhost, or the client and the server
    address both split on the dot into four components and their leading
    three components are equal one by one.  In every other case, other
    loopback addresses included, it answers deny.  The client address is
    the one the check extracts from the request: [clientIP] without its
    '::ffff:' marker, which for an address without a colon, such as a
    dotted quad, is [clientIP] itself. *)
Theorem isOnCorrectNetwork_local_iff
    (srv : Server) (req : Request) (clientIP : string) :
  ~ publicMode srv ->
  clientIPOf req = Some clientIP ->
  (isOnCorrectNetwork srv req = Some true <->
     extractIP clientIP = "127.0.0.1" \/
     extractIP clientIP = "::1" \/
     extractIP clientIP = "localhost" \/
     (isDottedQuad (extractIP clientIP) /\ isDottedQuad (SERVER_IP srv) /\
      sameLeadingThree (extractIP clientIP) (SERVER_IP srv)))
  /\
  (isOnCorrectNetwork srv req <> Some true ->
   isOnCorrectNetwork srv req = Some false)
  /\
  (countChar ":" clientIP = 0 -> extractIP clientIP = clientIP).
Proof.
  intros Hm Hc. rewrite (isOnCorrectNetwork_local srv req clientIP Hm Hc).
  assert (L : isLocalhost (extractIP clientIP) = true <->
              extractIP clientIP = "127.0.0.1" \/
              extractIP clientIP = "::1" \/
              extractIP clientIP = "localhost").
  { unfold isLocalhost. rewrite !orb_true_iff, !String.eqb_eq. tauto. }
  split; [|split].
  - split.
    + intros H. injection H as H. apply checkSubnet_true in H. tauto.
    + intros H. f_equal. apply checkSubnet_true. tauto.
  - destruct (checkSubnet (SERVER_IP srv) clientIP); congruence.
  - apply extractIP_noColon.
Qed.

Lemma isOnCorrectNetwork_local_iff_witness :
  let srv := localServer "192.168.8.101" in
  isOnCorrectNetwork srv (plainRequest "GET" "/" "192.168.8.102") = Some true /\
  isOnCorrectNetwork srv (plainRequest "GET" "/" "127.0.0.1") = Some true /\
  isOnCorrectNetwork srv (plainRequest "GET" "/" "::ffff:localhost") = Some true /\
  isOnCorrectNetwork srv (plainRequest "GET" "/" "192.168.9.50") = Some false.
Proof.
  assert (Hm : ~ publicMode (localServer "192.168.8.101"))
    by (unfold publicMode; simpl; discriminate).
  split; [|split; [|split]].
  - apply (isOnCorrectNetwork_local_iff
             (localServer "192.168.8.101")
             (plainRequest "GET" "/" "192.168.8.102") "192.168.8.102" Hm eq_refl).
    right. right. right. unfold isDottedQuad, sameLeadingThree. simpl.
    repeat split.
    intros i Hi. destruct i as [|[|[|i]]]; try reflexivity; lia.
  - apply (isOnCorrectNetwork_local_iff
             (localServer "192.168.8.101")
             (plainRequest "GET" "/" "127.0.0.1") "127.0.0.1" Hm eq_refl).
    left. reflexivity.
  - apply (isOnCorrectNetwork_local_iff
             (localServer "192.168.8.101")
             (plainRequest "GET" "/" "::ffff:localhost") "::ffff:localhost" Hm eq_refl).
    right. right. left. reflexivity.
  - apply (isOnCorrectNetwork_local_iff
             (localServer "192.168.8.101")
             (plainRequest "GET" "/" "192.168.9.50") "192.168.9.50" Hm eq_refl).
    vm_compute. discriminate.
Defined.

(** C6.  In public mode the check answers allow for every request: whatever
    the client address (a public one, or none at all) and whatever the
    server address. *)
Theorem isOnCorrectNetwork_public (srv : Server) (req : Request) :
  publicMode srv -> isOnCorrectNetwork srv req = Some true.
Proof.
  unfold publicMode, isOnCorrectNetwork. intros ->. reflexivity.
Qed.

Lemma isOnCorrectNetwork_public_witness :
  isOnCorrectNetwork (publicServer "192.168.8.101")
                     (plainRequest "GET" "/" "103.45.67.89") = Some true.
Proof.
  apply (isOnCorrectNetwork_public (publicServer "192.168.8.101")
                                   (plainRequest "GET" "/" "103.45.67.89")).
  reflexivity.
Defined.

(** C9.  A client address '::ffff:A.B.C.D' (A, B, C, D written in digits)
    gets the decision of the plain address 'A.B.C.D', for the same server
    and mode: the prefix is removed before the localhost and the subnet
    comparisons. *)
Theorem isOnCorrectNetwork_ipv4_mapped
    (srv : Server) (mapped plain : Request) (a b c d : string) :
  allDigits a = true -> allDigits b = true ->
  allDigits c = true -> allDigits d = true ->
  clientIPOf mapped = Some ("::ffff:" ++ dotted a b c d)%string ->
  clientIPOf plain = Some (dotted a b c d) ->
  isOnCorrectNetwork srv mapped = isOnCorrectNetwork srv plain.
Proof.
  intros Ha Hb Hc Hd Hm Hp.
  unfold isOnCorrectNetwork. rewrite Hm, Hp.
  destruct (String.eqb _ "public"); [reflexivity|].
  f_equal. unfold checkSubnet.
  rewrite extractIP_mapped.
  rewrite (extractIP_noColon (dotted a b c d)); [reflexivity|].
  unfold dotted. rewrite !countChar_app.
  rewrite (allDigits_noColon a Ha), (allDigits_noColon b Hb),
          (allDigits_noColon c Hc), (allDigits_noColon d Hd).
  reflexivity.
Qed.

Lemma isOnCorrectNetwork_ipv4_mapped_witness :
  isOnCorrectNetwork (localServer "192.168.8.101")
                     (plainRequest "GET" "/" "::ffff:192.168.8.102")
  = isOnCorrectNetwork (localServer "192.168.8.101")
                       (plainRequest "GET" "/" "192.168.8.102").
Proof.
  apply (isOnCorrectNetwork_ipv4_mapped
           (localServer "192.168.8.101")
           (plainRequest "GET" "/" "::ffff:192.168.8.102")
           (plainRequest "GET" "/" "192.168.8.102")
           "192" "168" "8" "102"); reflexivity.
Defined.

(** C10.  In local mode a client address that is not one of the localhost
    names and does not split on the dot into exactly four components (a
    plain IPv6 address such as fe80::1) is denied, whatever the server
    address. *)
Theorem isOnCorrectNetwork_not_dotted_quad
    (srv : Server) (req : Request) (clientIP : string) :
  ~ publicMode srv ->
  clientIPOf req = Some clientIP ->
  isLocalhost (extractIP clientIP) = false ->
  ~ isDottedQuad clientIP ->
  isOnCorrectNetwork srv req = Some false.
Proof.
  intros Hm Hc Hl Hq.
  rewrite (isOnCorrectNetwork_local srv req clientIP Hm Hc).
  f_equal. unfold checkSubnet. rewrite Hl.
  rewrite extractIP_split_length.
  destruct (Nat.eqb_spec (length (Js.split "." clientIP)) 4) as [E|E];
    [contradiction|reflexivity].
Qed.

Lemma isOnCorrectNetwork_not_dotted_quad_witness :
  isOnCorrectNetwork (localServer "192.168.8.101")
                     (plainRequest "GET" "/" "fe80::1") = Some false.
Proof.
  apply (isOnCorrectNetwork_not_dotted_quad
           (localServer "192.168.8.101")
           (plainRequest "GET" "/" "fe80::1") "fe80::1").
  - unfold publicMode. simpl. discriminate.
  - reflexivity.
  - reflexivity.
  - unfold isDottedQuad. simpl. discriminate.
Defined.

(** With the fallback address 0.0.0.0 the check still compares subnets:
    in local mode it allows the localhost names and the clients 0.0.0.x,
    and denies the rest. *)
Lemma isOnCorrectNetwork_fallback (srv : Server) (req : Request) (clientIP : string) :
  ~ publicMode srv ->
  SERVER_IP srv = "0.0.0.0" ->
  clientIPOf req = Some clientIP ->
  (isOnCorrectNetwork srv req = Some true <->
   isLocalhost (extractIP clientIP) = true \/
   (isDottedQuad (extractIP clientIP) /\
    sameLeadingThree (extractIP clientIP) "0.0.0.0")).
Proof.
  intros Hm Hs Hc.
  rewrite (isOnCorrectNetwork_local srv req clientIP Hm Hc), Hs.
  split.
  - intros H. injection H as H. apply checkSubnet_true in H. tauto.
  - intros H. f_equal. apply checkSubnet_true.
    destruct H as [H|[H1 H2]]; [now left|right].
    split; [assumption|]. split; [reflexivity|assumption].
Qed.

(** C5.  On a host without a private interface [getServerIP] falls back to
    0.0.0.0, and in local mode the client 0.0.0.5, which is not a localhost
    name, is then allowed: the fallback address is compared like a real
    subnet instead of denying every client. *)
Theorem fallback_address_allows_zero_subnet :
  let srv := startServer (cfg (localServer "")) publicHostInterfaces in
  let req := plainRequest "GET" "/" "0.0.0.5" in
  SERVER_IP srv = "0.0.0.0" /\
  ~ publicMode srv /\
  isLocalhost (extractIP "0.0.0.5") = false /\
  isOnCorrectNetwork srv req = Some true.
Proof.
  split; [reflexivity|]. split; [|split; reflexivity].
  unfold publicMode. simpl. discriminate.
Qed.

(* ================================================================== *)
(** ** The HTTP gate and the route table *)
(* ================================================================== *)

Section Gate.

(** The pages behind the gate answer every request, leave the session
    alone, and answer with one of four things. *)
Lemma servePages_cases (req : Request) (sess : option Session) :
  exists res,
    servePages req sess = Respond res sess /\
    (res = BadRequest \/ res = StaticFile \/
     res = Options (allowedMethods (req_path req)) \/ res = NotFound).
Proof.
  unfold servePages.
  destruct (negb (uriDecodes (req_path req))); [eexists; split; [reflexivity|tauto]|].
  destruct (_ || _); [eexists; split; [reflexivity|tauto]|].
  destruct (String.eqb _ "OPTIONS"); eexists; split; try reflexivity; tauto.
Qed.

(** The answers of the qr-code route: the session is left alone. *)
Lemma adminQrCode_session (srv : Server) (req : Request) :
  exists res, adminQrCode srv req = Respond res (req_session req).
Proof.
  unfold adminQrCode. destruct (req_session req) as [s|]; [|eexists; reflexivity].
  destruct (adminAuthenticated s); [|eexists; reflexivity].
  destruct (_ || _); eexists; reflexivity.
Qed.

Lemma reachesGate_route (srv : Server) (req : Request) :
  reachesGate req = true -> route srv req =
    match requireNetworkAccess srv req with
    | Next sess => servePages req sess
    | o => o
    end.
Proof.
  unfold reachesGate. rewrite !andb_true_iff, !negb_true_iff.
  intros [[[[[[[H1 H2] H3] H4] H5] H6] H7] H8].
  unfold route, networkValidation.
  now rewrite H1, H2, H3, H4, H5, H6, H7, H8.
Qed.

Lemma denialPage_names_ssid (ssid mode : string) :
  exists before after, denialPage ssid mode = (before ++ ssid ++ after)%string.
Proof.
  exists denialPageHead, (denialPageMid ++ mode ++ denialPageTail)%string.
  reflexivity.
Qed.

(** The gate marks a session authenticated only on an allow decision. *)
Lemma requireNetworkAccess_next (srv : Server) (req : Request) (sess : option Session) :
  requireNetworkAccess srv req = Next sess ->
  isOnCorrectNetwork srv req = Some true.
Proof.
  unfold requireNetworkAccess.
  destruct (isOnCorrectNetwork srv req) as [[|]|]; try discriminate.
  reflexivity.
Qed.

(** Every way the route table turns an unauthenticated session into an
    authenticated one: the gate after an allow decision, or the login
    route, which asks nothing. *)
Lemma authenticated_after_request
    (srv : Server) (req : Request) (s s' : Session) (res : Response) :
  req_session req = Some s ->
  authenticated s = false ->
  app srv req = (res, Some s') ->
  authenticated s' = true ->
  matchesPost "/api/login" req = true \/ isOnCorrectNetwork srv req = Some true.
Proof.
  intros Hs Hf Happ Ht. unfold app, route in Happ.
  destruct (matchesPost "/api/login" req); [now left|right].
  destruct (matchesPost "/api/logout" req).
  { unfold logout in Happ. rewrite Hs in Happ. discriminate. }
  destruct (matchesGet "/api/auth-status" req).
  { unfold authStatus in Happ. rewrite Hs in Happ. congruence. }
  destruct (matchesPost "/api/admin/login" req).
  { unfold adminLogin in Happ. rewrite Hs in Happ.
    destruct (Js.strictEq _ _); injection Happ as _ <-; simpl in Ht; congruence. }
  destruct (matchesGet "/api/admin/qr-code" req).
  { destruct (adminQrCode_session srv req) as [r E]. rewrite E, Hs in Happ.
    congruence. }
  destruct (matchesGet "/health" req).
  { rewrite Hs in Happ. congruence. }
  destruct (existsb _ redirectRoutes).
  { rewrite Hs in Happ. congruence. }
  unfold networkValidation in Happ.
  destruct (_ || _).
  { destruct (servePages_cases req (req_session req)) as (r & E & _).
    rewrite E, Hs in Happ. congruence. }
  destruct (requireNetworkAccess srv req) as [sess|r sess|] eqn:E.
  - eapply requireNetworkAccess_next; eassumption.
  - unfold requireNetworkAccess in E.
    destruct (isOnCorrectNetwork srv req) as [[|]|]; try discriminate.
    + rewrite Hs in E. destruct (negb _); discriminate.
    + injection E as <- <-. rewrite Hs in Happ. congruence.
  - rewrite Hs in Happ. congruence.
Qed.

End Gate.

(** Case analysis on the answer of the pages behind the gate *)
Ltac serve_pages :=
  match goal with
  | |- context [servePages ?q ?x] =>
      let r := fresh "r" in
      let E := fresh "E" in
      destruct (servePages_cases q x) as (r & E & [-> | [-> | [-> | ->]]]);
      rewrite E
  end.

(** C7, as stated, fails on the no-leak half: the denial page prints the
    server's DEPLOYMENT_MODE.  Two servers that differ in nothing but that
    variable answer the same denied request with different pages, and the
    text of the variable stands in the page. *)
Lemma denial_page_prints_deployment_mode :
  let req := plainRequest "GET" "/index.html" "103.45.67.89" in
  let local := serverInMode "local" "192.168.8.101" in
  let staging := serverInMode "staging" "192.168.8.101" in
  fst (app local req) = Send 403 (denialPage "Pathum" "local") /\
  fst (app staging req) = Send 403 (denialPage "Pathum" "staging") /\
  denialPage "Pathum" "local" <> denialPage "Pathum" "staging" /\
  exists before after,
    denialPage "Pathum" "staging"
    = (before ++ "Deployment Mode: staging" ++ after)%string.
Proof.
  split; [reflexivity|]. split; [reflexivity|]. split.
  - intros H. apply (f_equal String.length) in H. vm_compute in H. discriminate.
  - exists (denialPageHead ++ "Pathum"
            ++ substring 0 (String.length denialPageMid - 17) denialPageMid)%string,
           denialPageTail.
    vm_compute. reflexivity.
Qed.

(** C7, amended.  A request that reaches the gate and is denied is answered
    with status 403 and the denial page, the request is not passed on to
    the pages behind the gate, the session is left as it was and the server
    goes on (no exception).  The page is the fixed template with two texts
    of the configuration filled in, the SSID and the deployment mode: it
    contains both, and it is the same for every denied request of every
    server with that SSID and mode, whatever the session, the client
    address, the server address or the secrets of the configuration. *)
Theorem requireNetworkAccess_denied (srv : Server) (req : Request) :
  reachesGate req = true ->
  isOnCorrectNetwork srv req = Some false ->
  let page := denialPage (wifi_ssid (cfg srv)) (deployment_mode (cfg srv)) in
  requireNetworkAccess srv req = Respond (Send 403 page) (req_session req) /\
  route srv req = Respond (Send 403 page) (req_session req) /\
  app srv req = (Send 403 page, req_session req) /\
  (exists before after, page = (before ++ wifi_ssid (cfg srv) ++ after)%string) /\
  (exists before after,
      page = (before ++ "Deployment Mode: " ++ deployment_mode (cfg srv)
                     ++ after)%string) /\
  (forall (srv' : Server) (req' : Request),
      wifi_ssid (cfg srv') = wifi_ssid (cfg srv) ->
      deployment_mode (cfg srv') = deployment_mode (cfg srv) ->
      isOnCorrectNetwork srv' req' = Some false ->
      requireNetworkAccess srv' req' = Respond (Send 403 page) (req_session req')).
Proof.
  intros Hg Hd page.
  assert (Hr : requireNetworkAccess srv req = Respond (Send 403 page) (req_session req)).
  { unfold requireNetworkAccess. now rewrite Hd. }
  assert (Hroute : route srv req = Respond (Send 403 page) (req_session req)).
  { rewrite (reachesGate_route srv req Hg), Hr. reflexivity. }
  split; [exact Hr|]. split; [exact Hroute|]. split; [|split; [|split]].
  - unfold app. now rewrite Hroute.
  - apply denialPage_names_ssid.
  - exists (denialPageHead ++ wifi_ssid (cfg srv)
            ++ substring 0 (String.length denialPageMid - 17) denialPageMid)%string,
           denialPageTail.
    unfold page, denialPage.
    assert (M : denialPageMid
                = (substring 0 (String.length denialPageMid - 17) denialPageMid
                   ++ "Deployment Mode: ")%string) by (vm_compute; reflexivity).
    rewrite M at 1. now rewrite !string_app_assoc.
  - intros srv' req' Hs Hm Hd'. unfold requireNetworkAccess.
    rewrite Hd'. unfold page. now rewrite Hs, Hm.
Qed.

Lemma requireNetworkAccess_denied_witness :
  app (localServer "192.168.8.101") (plainRequest "GET" "/index.html" "103.45.67.89")
  = (Send 403 (denialPage "Pathum" "local"),
     req_session (plainRequest "GET" "/index.html" "103.45.67.89")).
Proof.
  apply (requireNetworkAccess_denied
           (localServer "192.168.8.101")
           (plainRequest "GET" "/index.html" "103.45.67.89")); reflexivity.
Defined.

(** C8, as stated, fails: the probe paths are registered with [app.get],
    so a POST to one of them is not answered by the redirect; it falls
    through to the network validation, and a client off the subnet
    gets 403. *)
Lemma captive_portal_post_not_redirected :
  let srv := localServer "192.168.8.101" in
  let req := plainRequest "POST" "/generate_204" "103.45.67.89" in
  In (req_path req) captivePortalPaths /\
  fst (app srv req) = Send 403 (denialPage "Pathum" "local") /\
  fst (app srv req) <> Redirect 302 (getServerUrl srv req).
Proof.
  split; [simpl; tauto|]. split; [reflexivity|].
  vm_compute. discriminate.
Qed.

(** C8, amended.  Every GET or HEAD request to one of the captive-portal
    probe paths is answered with a 302 redirect to the server URL, and the
    session is left as it was, whatever the network check says about the
    client: the check is not consulted on these routes. *)
Theorem captive_portal_redirect (srv : Server) (req : Request) :
  req_method req = "GET" \/ req_method req = "HEAD" ->
  In (req_path req) captivePortalPaths ->
  app srv req = (Redirect 302 (getServerUrl srv req), req_session req).
Proof.
  intros Hm Hp.
  assert (E : route srv req
              = Respond (Redirect 302 (getServerUrl srv req)) (req_session req)).
  { unfold route, matchesPost, matchesGet, redirectRoutes.
    simpl in Hp.
    destruct Hm as [Hm|Hm]; rewrite Hm;
      destruct Hp as [Hp|[Hp|[Hp|[Hp|[Hp|[]]]]]]; rewrite <- Hp; reflexivity. }
  unfold app. now rewrite E.
Qed.

Lemma captive_portal_redirect_witness :
  isOnCorrectNetwork (localServer "192.168.8.101")
                     (plainRequest "GET" "/generate_204" "103.45.67.89") = Some false /\
  app (localServer "192.168.8.101") (plainRequest "GET" "/generate_204" "103.45.67.89")
  = (Redirect 302 "https://192.168.8.101:8443",
     req_session (plainRequest "GET" "/generate_204" "103.45.67.89")).
Proof.
  split; [reflexivity|].
  apply (captive_portal_redirect
           (localServer "192.168.8.101")
           (plainRequest "GET" "/generate_204" "103.45.67.89")).
  - left. reflexivity.
  - simpl. tauto.
Defined.

(** The login route authenticates whoever posts to it. *)
Lemma login_authenticates (srv : Server) (req : Request) (s : Session) :
  matchesPost "/api/login" req = true ->
  req_session req = Some s ->
  exists res s', app srv req = (res, Some s') /\ authenticated s' = true.
Proof.
  intros Hm Hs. unfold app, route, login. rewrite Hm, Hs.
  eexists. eexists. split; reflexivity.
Qed.

(** C2.  A client off the server's subnet, in local mode, posts to
    /api/login: the network check denies the address, yet the answer is
    the success message, the session is marked authenticated, and with
    that session the WebSocket upgrade is accepted.  The login route is
    registered before the network validation and does no check of
    its own. *)
Theorem login_bypasses_network_check :
  let srv := localServer "192.168.8.101" in
  let req := plainRequest "POST" "/api/login" "103.45.67.89" in
  isOnCorrectNetwork srv req = Some false /\
  (exists s : Session, req_session req = Some s /\ authenticated s = false) /\
  exists (res : Response) (s' : Session),
    app srv req = (res, Some s') /\
    authenticated s' = true /\
    onUpgrade (Some s') = [HandleUpgrade].
Proof.
  split; [reflexivity|]. split.
  - eexists. split; reflexivity.
  - eexists. eexists. repeat split.
Qed.

(* ================================================================== *)
(** ** The upgrade gate and the relay *)
(* ================================================================== *)

Section RelayFacts.

Variable srv : Server.

Lemma run_cons (r : Relay) (e : Event) (events : list Event) :
  run srv r (e :: events) = run srv (step srv r e) events.
Proof. reflexivity. Qed.

Lemma sentBy_snoc (sock k : nat) (conns : list nat)
      (log : list (nat * Datagram)) (d : Datagram) :
  sentBy sock {| connections := conns; sent := log ++ [(k, d)] |} =
  sentBy sock {| connections := conns; sent := log |}
  ++ (if Nat.eqb sock k then [d] else []).
Proof.
  unfold sentBy. simpl. rewrite filter_app, map_app. simpl.
  destruct (Nat.eqb sock k); reflexivity.
Qed.

Lemma hasListener_filter (sock k : nat) (conns : list nat) :
  sock <> k ->
  existsb (Nat.eqb sock) (filter (fun j => negb (Nat.eqb k j)) conns)
  = existsb (Nat.eqb sock) conns.
Proof.
  intros Hne. induction conns as [|j conns IH]; simpl; [reflexivity|].
  destruct (Nat.eqb_spec k j) as [->|Hkj]; simpl.
  - destruct (Nat.eqb_spec sock j); [contradiction|]. exact IH.
  - now rewrite IH.
Qed.




(** One step on a socket with listener, other than its close: the listener
    stays, and a frame of that socket adds one datagram for it. *)
Lemma step_with_listener (r : Relay) (sock : nat) (e : Event) :
  hasListener sock r = true ->
  e <> Close sock ->
  hasListener sock (step srv r e) = true /\
  sentBy sock (step srv r e) =
  sentBy sock r ++ map (forward srv) (framesOf sock [e]).
Proof.
  intros Hl Hc. destruct r as [conns log].
  destruct e as [k sess|k data b|k|k]; simpl in *.
  - rewrite app_nil_r.
    destruct (existsb isHandleUpgrade (onUpgrade sess)); [|now split].
    split; [|reflexivity]. unfold hasListener in *. simpl in *.
    rewrite Hl. apply orb_true_r.
  - destruct (Nat.eqb_spec sock k) as [<-|Hne].
    + rewrite Hl. split; [exact Hl|]. rewrite sentBy_snoc, Nat.eqb_refl.
      reflexivity.
    + destruct (hasListener k _); simpl; rewrite ?app_nil_r; [|now split].
      split; [exact Hl|]. rewrite sentBy_snoc.
      destruct (Nat.eqb_spec sock k); [contradiction|]. apply app_nil_r.
  - rewrite app_nil_r. split; [|reflexivity].
    unfold hasListener in *. simpl in *.
    rewrite hasListener_filter; [exact Hl|]. congruence.
  - rewrite app_nil_r. now split.
Qed.

Lemma framesOf_cons (sock : nat) (e : Event) (events : list Event) :
  framesOf sock (e :: events) = framesOf sock [e] ++ framesOf sock events.
Proof.
  destruct e as [k sess|k data b|k|k]; simpl; try reflexivity.
  destruct (Nat.eqb sock k); reflexivity.
Qed.

Lemma run_with_listener (events : list Event) (r : Relay) (sock : nat) :
  hasListener sock r = true ->
  Forall (fun e => e <> Close sock) events ->
  sentBy sock (run srv r events) =
  sentBy sock r ++ map (forward srv) (framesOf sock events).
Proof.
  revert r. induction events as [|e events IH]; intros r Hl Hall.
  - simpl. now rewrite app_nil_r.
  - inversion Hall as [|? ? He Hrest]; subst. rewrite run_cons.
    destruct (step_with_listener r sock e Hl He) as [Hl' Hs'].
    rewrite (IH (step srv r e) Hl' Hrest), Hs', (framesOf_cons sock e events), map_app.
    symmetry. apply app_assoc.
Qed.

End RelayFacts.



(** C4.  On an accepted connection every frame, binary or not, makes the
    listener call [udp.send] once, with the frame's bytes as they came and
    the port and address the configuration had at startup.  Over any run of
    events in which the connection is not closed, the datagrams sent for
    the connection are its frames, one datagram per frame, in arrival
    order. *)
Theorem relay_forwards_each_frame
    (c : Config) (interfaces : NetworkInterfaces)
    (r : Relay) (sock : nat) (events : list Event) :
  let srv := startServer c interfaces in
  let datagram := fun data : Frame =>
    {| payload := data; port := server_udpPort c; address_to := server_esp32Ip c |} in
  hasListener sock r = true ->
  Forall (fun e => e <> Close sock) events ->
  (forall (data : Frame) (isBinary : bool),
      step srv r (Message sock data isBinary) =
      {| connections := connections r;
         sent := sent r ++ [(sock, datagram data)] |}) /\
  sentBy sock (run srv r events) =
  sentBy sock r ++ map datagram (framesOf sock events).
Proof.
  intros srv datagram Hl Hall. split.
  - intros data isBinary. simpl. now rewrite Hl.
  - now apply run_with_listener.
Qed.

Lemma relay_forwards_each_frame_witness :
  let srv := startServer (cfg (localServer "")) publicHostInterfaces in
  let r := step srv (step srv noRelay (Upgrade 1 (Some
             {| authenticated := true; connectedAt := None;
                adminAuthenticated := false |})))
             (Upgrade 2 (Some
             {| authenticated := true; connectedAt := None;
                adminAuthenticated := false |})) in
  sentBy 1 (run srv r [Message 1 [Byte.x0a] true; Message 2 [Byte.x0b] true;
                       Close 2; Message 1 [Byte.x0c; Byte.x0d] true])
  = [ {| payload := [Byte.x0a]; port := 5005; address_to := "192.168.1.25" |};
      {| payload := [Byte.x0c; Byte.x0d]; port := 5005; address_to := "192.168.1.25" |} ].
Proof.
  intros srv r.
  apply (relay_forwards_each_frame (cfg (localServer "")) publicHostInterfaces r 1
           [Message 1 [Byte.x0a] true; Message 2 [Byte.x0b] true;
            Close 2; Message 1 [Byte.x0c; Byte.x0d] true]).
  - reflexivity.
  - repeat constructor; discriminate.
Defined.

(* ================================================================== *)
(** ** More about the subnet check *)
(* ================================================================== *)

Section DottedQuads.

Lemma allDigits_noDot (s : string) :
  allDigits s = true -> countChar "." s = 0.
Proof.
  induction s as [|a s IH]; simpl; intros H; [reflexivity|].
  apply andb_prop in H as [Ha Hs]. rewrite (IH Hs).
  destruct (Ascii.eqb a ".") eqn:E; [|reflexivity].
  apply Ascii.eqb_eq in E. subst a. discriminate.
Qed.

Lemma split_component (a rest : string) :
  countChar "." a = 0 ->
  Js.split "." (a ++ "." ++ rest) = a :: Js.split "." rest.
Proof.
  induction a as [|x a IH]; intros H.
  - reflexivity.
  - simpl in H. destruct (Ascii.eqb x ".") eqn:E; [discriminate|].
    simpl. rewrite E. simpl in IH. now rewrite IH.
Qed.

Lemma split_last (a : string) :
  countChar "." a = 0 -> Js.split "." a = [a].
Proof.
  induction a as [|x a IH]; intros H.
  - reflexivity.
  - simpl in H. destruct (Ascii.eqb x ".") eqn:E; [discriminate|].
    simpl. rewrite E. now rewrite IH.
Qed.

Lemma split_dotted (a b c d : string) :
  allDigits a = true -> allDigits b = true ->
  allDigits c = true -> allDigits d = true ->
  Js.split "." (dotted a b c d) = [a; b; c; d].
Proof.
  intros Ha Hb Hc Hd. unfold dotted.
  rewrite !split_component by now apply allDigits_noDot.
  now rewrite split_last by now apply allDigits_noDot.
Qed.

Lemma extractIP_dotted (a b c d : string) :
  allDigits a = true -> allDigits b = true ->
  allDigits c = true -> allDigits d = true ->
  extractIP (dotted a b c d) = dotted a b c d.
Proof.
  intros Ha Hb Hc Hd. apply extractIP_noColon.
  unfold dotted. rewrite !countChar_app.
  rewrite (allDigits_noColon a Ha), (allDigits_noColon b Hb),
          (allDigits_noColon c Hc), (allDigits_noColon d Hd).
  reflexivity.
Qed.

Lemma isLocalhost_cases (s : string) :
  isLocalhost s = true <-> s = "127.0.0.1" \/ s = "::1" \/ s = "localhost".
Proof.
  unfold isLocalhost. rewrite !orb_true_iff, !String.eqb_eq. tauto.
Qed.

Lemma isLocalhost_dotted (a b c d : string) :
  allDigits a = true -> allDigits b = true ->
  allDigits c = true -> allDigits d = true ->
  isLocalhost (dotted a b c d) = true <-> dotted a b c d = "127.0.0.1".
Proof.
  intros Ha Hb Hc Hd. rewrite isLocalhost_cases. split; [|tauto].
  intros [H|[H|H]]; [exact H| |]; exfalso.
  - assert (E : length (Js.split "." (dotted a b c d)) = length (Js.split "." "::1"))
      by now rewrite H.
    rewrite split_dotted in E by assumption. discriminate.
  - assert (E : length (Js.split "." (dotted a b c d)) = length (Js.split "." "localhost"))
      by now rewrite H.
    rewrite split_dotted in E by assumption. discriminate.
Qed.

End DottedQuads.

(** X1.  For numeric dotted quads the local-mode check is the /24 rule with
    one exception: client a.b.c.d is allowed against server a'.b'.c'.d'
    exactly when a = a', b = b' and c = c' as texts (so 08 and 8 differ, and
    the fourth components play no role), or the client is 127.0.0.1. *)
Theorem checkSubnet_dotted_iff (a b c d a' b' c' d' : string) :
  allDigits a = true -> allDigits b = true ->
  allDigits c = true -> allDigits d = true ->
  allDigits a' = true -> allDigits b' = true ->
  allDigits c' = true -> allDigits d' = true ->
  (checkSubnet (dotted a' b' c' d') (dotted a b c d) = true <->
   dotted a b c d = "127.0.0.1" \/ (a = a' /\ b = b' /\ c = c')).
Proof.
  intros Ha Hb Hc Hd Ha' Hb' Hc' Hd'.
  rewrite checkSubnet_true, extractIP_dotted by assumption.
  rewrite isLocalhost_dotted by assumption.
  unfold isDottedQuad, sameLeadingThree.
  rewrite !split_dotted by assumption.
  rewrite nth_error_lt3. simpl.
  split.
  - intros [H|(_ & _ & H0 & H1 & H2)]; [now left|right].
    repeat split; congruence.
  - intros [H|(-> & -> & ->)]; [now left|right]. repeat split.
Qed.

Lemma checkSubnet_dotted_iff_witness :
  checkSubnet (dotted "192" "168" "8" "101") (dotted "192" "168" "8" "7") = true.
Proof.
  apply (checkSubnet_dotted_iff "192" "168" "8" "7" "192" "168" "8" "101");
    try reflexivity.
  right. repeat split.
Defined.

(** X2.  The localhost names pass the check in every deployment mode and
    against every server address, also when they come with the '::ffff:'
    marker in front. *)
Theorem isOnCorrectNetwork_localhost
    (srv : Server) (req : Request) (name : string) :
  In name ["127.0.0.1"; "::1"; "localhost"] ->
  clientIPOf req = Some name \/ clientIPOf req = Some ("::ffff:" ++ name)%string ->
  isOnCorrectNetwork srv req = Some true.
Proof.
  intros Hn Hc. unfold isOnCorrectNetwork.
  destruct (String.eqb _ "public"); [reflexivity|].
  simpl in Hn.
  destruct Hc as [-> | ->];
    destruct Hn as [<-|[<-|[<-|[]]]]; reflexivity.
Qed.

Lemma isOnCorrectNetwork_localhost_witness :
  isOnCorrectNetwork (localServer "10.1.2.3")
                     (plainRequest "GET" "/" "::ffff:127.0.0.1") = Some true.
Proof.
  apply (isOnCorrectNetwork_localhost (localServer "10.1.2.3")
           (plainRequest "GET" "/" "::ffff:127.0.0.1") "127.0.0.1").
  - simpl. tauto.
  - right. reflexivity.
Defined.

(** X3.  The '::ffff:' marker is removed where it first occurs, not only in
    front: an address with colon-free text before the marker is checked as
    that text followed by what comes after the marker. *)
Theorem extractIP_marker_inside (before after : string) :
  countChar ":" before = 0 ->
  extractIP (before ++ "::ffff:" ++ after) = (before ++ after)%string.
Proof.
  unfold extractIP. induction before as [|x before IH]; intros H.
  - reflexivity.
  - simpl in H. destruct (Ascii.eqb x ":") eqn:E; [discriminate|].
    change (String x before ++ "::ffff:" ++ after)%string
      with (String x (before ++ "::ffff:" ++ after)).
    change (String x before ++ after)%string with (String x (before ++ after)).
    assert (F : Js.startsWith "::ffff:" (String x (before ++ "::ffff:" ++ after)) = false).
    { cbn [Js.startsWith]. rewrite Ascii.eqb_sym, E. reflexivity. }
    rewrite replace_eq, F. f_equal. apply IH. exact H.
Qed.

Lemma extractIP_marker_inside_witness :
  extractIP "192.168.8.::ffff:55" = "192.168.8.55".
Proof.
  apply (extractIP_marker_inside "192.168.8." "55"). reflexivity.
Defined.

(** X4.  A request without a transport address (the socket is gone) makes
    the check throw in local mode: the gate neither serves nor denies, the
    request ends in the 500 answer and the session stays as it was.  In
    public mode the address is not read. *)
Theorem isOnCorrectNetwork_without_address (srv : Server) (req : Request) :
  clientIPOf req = None ->
  (publicMode srv -> isOnCorrectNetwork srv req = Some true) /\
  (~ publicMode srv ->
     isOnCorrectNetwork srv req = None /\
     requireNetworkAccess srv req = Throw /\
     (reachesGate req = true -> app srv req = (ServerError, req_session req))).
Proof.
  intros Hc. split.
  - unfold publicMode, isOnCorrectNetwork. intros ->. reflexivity.
  - intros Hm.
    assert (E : isOnCorrectNetwork srv req = None).
    { unfold isOnCorrectNetwork, publicMode in *.
      destruct (String.eqb_spec (deployment_mode (cfg srv)) "public");
        [contradiction|]. now rewrite Hc. }
    assert (T : requireNetworkAccess srv req = Throw).
    { unfold requireNetworkAccess. now rewrite E. }
    repeat split; try assumption.
    intros Hg. unfold app. now rewrite (reachesGate_route srv req Hg), T.
Qed.

Lemma isOnCorrectNetwork_without_address_witness :
  app (localServer "192.168.8.101")
      (setClient (plainRequest "GET" "/index.html" "x") None None)
  = (ServerError, Some freshSession).
Proof.
  apply (isOnCorrectNetwork_without_address
           (localServer "192.168.8.101")
           (setClient (plainRequest "GET" "/index.html" "x") None None)).
  - reflexivity.
  - unfold publicMode. simpl. discriminate.
  - reflexivity.
Defined.

(* ================================================================== *)
(** ** Network detection and configuration *)
(* ================================================================== *)

Section Detection.

Lemma numEq_true (a : option Z) (n : Z) : numEq a n = true -> a = Some n.
Proof.
  destruct a as [v|]; simpl; [|discriminate].
  intros H. apply Z.eqb_eq in H. now subst.
Qed.

Lemma numBetween_true (a : option Z) (lo hi : Z) :
  numBetween a lo hi = true -> exists n, a = Some n /\ (lo <= n <= hi)%Z.
Proof.
  destruct a as [v|]; simpl; [|discriminate].
  intros H. apply andb_prop in H as [H1 H2].
  apply Z.leb_le in H1, H2. exists v. split; [reflexivity|lia].
Qed.

Lemma privateAddress_some (iface : NetworkInterfaceInfo) (ip : string) :
  privateAddress iface = Some ip ->
  ip = address iface /\ isExternalIPv4 iface /\ privateOctets ip.
Proof.
  unfold privateAddress, isExternalIPv4, privateOctets.
  destruct (String.eqb_spec (family iface) "IPv4") as [Hf|]; [|discriminate].
  destruct (internal iface); [discriminate|]. simpl.
  destruct (numEq _ 192 && numEq _ 168) eqn:E1.
  { intros H. injection H as <-. apply andb_prop in E1 as [A B].
    apply numEq_true in A, B. tauto. }
  destruct (numEq _ 10) eqn:E2.
  { intros H. injection H as <-. apply numEq_true in E2. tauto. }
  destruct (numEq _ 172 && numBetween _ 16 31) eqn:E3; [|discriminate].
  intros H. injection H as <-. apply andb_prop in E3 as [A B].
  apply numEq_true in A. apply numBetween_true in B. tauto.
Qed.

Lemma firstPrivate_some (ifaces : list NetworkInterfaceInfo) (ip : string) :
  firstPrivate ifaces = Some ip ->
  exists iface, In iface ifaces /\ privateAddress iface = Some ip.
Proof.
  induction ifaces as [|i rest IH]; simpl; [discriminate|].
  destruct (privateAddress i) as [ip'|] eqn:E.
  - intros H. injection H as <-. exists i. auto.
  - intros H. destruct (IH H) as (iface & Hin & Hp). exists iface. auto.
Qed.

Lemma scanInterfaces_some (interfaces : NetworkInterfaces) (ip : string) :
  scanInterfaces interfaces = Some ip ->
  exists name ifaces iface,
    In (name, ifaces) interfaces /\ In iface ifaces /\
    privateAddress iface = Some ip.
Proof.
  induction interfaces as [|[name ifaces] rest IH]; simpl; [discriminate|].
  destruct (firstPrivate ifaces) as [ip'|] eqn:E.
  - intros H. injection H as <-.
    destruct (firstPrivate_some ifaces ip' E) as (iface & Hin & Hp).
    exists name, ifaces, iface. auto.
  - intros H. destruct (IH H) as (n & l & iface & Hin & Hin' & Hp).
    exists n, l, iface. auto.
Qed.

Lemma scanInterfaces_app (a b : NetworkInterfaces) :
  scanInterfaces (a ++ b) =
  match scanInterfaces a with
  | Some ip => Some ip
  | None => scanInterfaces b
  end.
Proof.
  induction a as [|[name ifaces] a IH]; simpl; [reflexivity|].
  destruct (firstPrivate ifaces); [reflexivity|exact IH].
Qed.

(** The fallback text is never the address of a chosen interface. *)
Lemma scanInterfaces_not_fallback (interfaces : NetworkInterfaces) (ip : string) :
  scanInterfaces interfaces = Some ip -> ip <> "0.0.0.0".
Proof.
  intros H. destruct (scanInterfaces_some interfaces ip H) as (_ & _ & iface & _ & _ & Hp).
  apply privateAddress_some in Hp as (_ & _ & Ho). intros ->.
  unfold privateOctets in Ho. simpl in Ho.
  destruct Ho as [[A _]|[A|[A _]]]; discriminate.
Qed.

End Detection.

(** X5.  [getServerIP] returns the fallback 0.0.0.0 or the address of an
    interface entry that is IPv4, not internal, and whose first two
    components parse to 192 and 168, to 10, or to 172 and a number from 16
    to 31: a loopback, IPv6 or public address is never chosen. *)
Theorem getServerIP_sound (interfaces : NetworkInterfaces) :
  getServerIP interfaces = "0.0.0.0" \/
  exists name ifaces iface,
    In (name, ifaces) interfaces /\ In iface ifaces /\
    isExternalIPv4 iface /\
    address iface = getServerIP interfaces /\
    privateOctets (address iface).
Proof.
  unfold getServerIP.
  destruct (scanInterfaces interfaces) as [ip|] eqn:E; [right|now left].
  destruct (scanInterfaces_some interfaces ip E) as (name & ifaces & iface & H1 & H2 & Hp).
  apply privateAddress_some in Hp as (-> & He & Ho).
  exists name, ifaces, iface. auto.
Qed.

(** X6.  Interfaces are scanned in order and the first private address
    wins: for a list made of two parts, the result is that of the first
    part unless the first part has no private address, and then it is that
    of the second part. *)
Theorem getServerIP_first_wins (a b : NetworkInterfaces) :
  getServerIP (a ++ b) =
  if String.eqb (getServerIP a) "0.0.0.0" then getServerIP b else getServerIP a.
Proof.
  unfold getServerIP. rewrite scanInterfaces_app.
  destruct (scanInterfaces a) as [ip|] eqn:E; [|reflexivity].
  apply scanInterfaces_not_fallback in E.
  destruct (String.eqb_spec ip "0.0.0.0"); [contradiction|reflexivity].
Qed.

(** X7.  A non-internal IPv4 address that starts with 10., 192.168. or
    172.16. to 172.31. is taken, whatever follows the prefix: when it is
    the first entry of the first interface it is the server address. *)
Theorem getServerIP_private_prefix
    (name : string) (iface : NetworkInterfaceInfo)
    (others : list NetworkInterfaceInfo) (more : NetworkInterfaces)
    (prefix rest : string) :
  isExternalIPv4 iface ->
  In prefix privatePrefixes ->
  address iface = (prefix ++ rest)%string ->
  getServerIP ((name, iface :: others) :: more) = address iface.
Proof.
  intros [Hf Hi] Hp Ha.
  assert (E : privateAddress iface = Some (address iface)).
  { unfold privateAddress. rewrite Hf, Hi, Ha. simpl in Hp.
    repeat (destruct Hp as [<-|Hp]; [reflexivity|]). destruct Hp. }
  unfold getServerIP. simpl. now rewrite E.
Qed.

Lemma getServerIP_private_prefix_witness :
  getServerIP [("wlan0", [{| family := "IPv4"; internal := false;
                             address := "172.20.1.5" |}]);
               ("eth0", [{| family := "IPv4"; internal := false;
                            address := "10.0.0.2" |}])]
  = "172.20.1.5".
Proof.
  apply (getServerIP_private_prefix "wlan0"
           {| family := "IPv4"; internal := false; address := "172.20.1.5" |}
           [] _ "172.20." "1.5").
  - split; reflexivity.
  - simpl. tauto.
  - reflexivity.
Defined.

(** X8.  HTTPS cannot be switched off through the environment: whatever
    HTTPS_ENABLED holds, the configuration has https enabled, so with a
    detected server address every server URL (captive-portal redirects, the
    QR code) is the https one and the plain-http branch is never taken. *)
Theorem config_https_always_enabled
    (env : Env) (interfaces : NetworkInterfaces) (req : Request) :
  let srv := startServer (config env) interfaces in
  server_https_enabled (cfg srv) = true /\
  (SERVER_IP srv <> "0.0.0.0" ->
   getServerUrl srv req
   = ("https://" ++ SERVER_IP srv ++ ":" ++ server_https_port (cfg srv))%string).
Proof.
  intros srv. split.
  - simpl. apply orb_true_r.
  - intros Hs. unfold getServerUrl.
    destruct (String.eqb_spec (SERVER_IP srv) "0.0.0.0"); [contradiction|].
    simpl. now rewrite orb_true_r.
Qed.

Lemma config_https_always_enabled_witness :
  getServerUrl
    (startServer (config {| DEPLOYMENT_MODE := None; ENV_PORT := None;
                            SERVER_URL := None; HTTPS_ENABLED := Some "false";
                            HTTPS_PORT := None |})
                 [("eth0", [{| family := "IPv4"; internal := false;
                               address := "10.0.0.2" |}])])
    (plainRequest "GET" "/generate_204" "10.0.0.9")
  = "https://10.0.0.2:8443".
Proof.
  apply (config_https_always_enabled
           {| DEPLOYMENT_MODE := None; ENV_PORT := None; SERVER_URL := None;
              HTTPS_ENABLED := Some "false"; HTTPS_PORT := None |}
           [("eth0", [{| family := "IPv4"; internal := false;
                         address := "10.0.0.2" |}])]
           (plainRequest "GET" "/generate_204" "10.0.0.9")).
  simpl. discriminate.
Defined.

(** X9.  The network check is switched off only by DEPLOYMENT_MODE being
    exactly the text public: unset, empty, or spelled any other way (Public,
    PUBLIC) leaves the server in the checking mode. *)
Theorem config_public_mode_iff (env : Env) (interfaces : NetworkInterfaces) :
  publicMode (startServer (config env) interfaces) <->
  DEPLOYMENT_MODE env = Some "public".
Proof.
  unfold publicMode. simpl. unfold orDefault.
  destruct (DEPLOYMENT_MODE env) as [[|c s]|]; simpl; split; intros H;
    try discriminate; congruence.
Qed.

(* ================================================================== *)
(** ** Sessions through the route table *)
(* ================================================================== *)

Section Sessions.

Lemma pathMatches_cases (r p : string) :
  pathMatches r p = true ->
  Js.toLowerCase p = r \/ Js.toLowerCase p = (r ++ "/")%string.
Proof.
  unfold pathMatches. rewrite orb_true_iff, !String.eqb_eq. tauto.
Qed.

Lemma refused_actions (sess : option Session) :
  (forall s, sess = Some s -> authenticated s = false) ->
  onUpgrade sess = [SocketWrite unauthorizedLine; SocketDestroy].
Proof.
  intros H. destruct sess as [s|]; simpl; [|reflexivity].
  now rewrite (H s eq_refl).
Qed.

(** What the gate does with a session when the check allows *)
Lemma gate_allow_next (srv : Server) (req : Request) (s : Session) :
  isOnCorrectNetwork srv req = Some true ->
  req_session req = Some s ->
  exists s',
    requireNetworkAccess srv req = Next (Some s') /\
    authenticated s' = true /\
    adminAuthenticated s' = adminAuthenticated s /\
    (authenticated s = true -> s' = s) /\
    (authenticated s = false -> connectedAt s' = Some (req_now req)).
Proof.
  intros Ha Hs. unfold requireNetworkAccess. rewrite Ha, Hs.
  destruct (authenticated s) eqn:E; simpl.
  - exists s. repeat split; auto. discriminate.
  - eexists. split; [reflexivity|]. simpl. repeat split; auto. discriminate.
Qed.

End Sessions.

(** X10.  When the check allows a request, the gate passes it on with the
    session marked authenticated.  A session that was not authenticated
    gets the time of this request as [connectedAt]; one that already was is
    passed on unchanged, its first [connectedAt] kept.  The admin flag is
    never touched. *)
Theorem requireNetworkAccess_allowed (srv : Server) (req : Request) (s : Session) :
  isOnCorrectNetwork srv req = Some true ->
  req_session req = Some s ->
  exists s',
    requireNetworkAccess srv req = Next (Some s') /\
    authenticated s' = true /\
    adminAuthenticated s' = adminAuthenticated s /\
    (authenticated s = true -> s' = s) /\
    (authenticated s = false -> connectedAt s' = Some (req_now req)).
Proof.
  intros Ha Hs. now apply gate_allow_next.
Qed.

Lemma requireNetworkAccess_allowed_witness :
  exists s',
    requireNetworkAccess (localServer "192.168.8.101")
                         (plainRequest "GET" "/" "192.168.8.102") = Next (Some s') /\
    authenticated s' = true.
Proof.
  destruct (requireNetworkAccess_allowed
              (localServer "192.168.8.101")
              (plainRequest "GET" "/" "192.168.8.102") freshSession)
    as (s' & H1 & H2 & _); [reflexivity|reflexivity|].
  exists s'. split; assumption.
Defined.

(** X11.  From the page to the receiver: a request that reaches the gate
    and is allowed leaves an authenticated session (and gets a page when it
    is a GET or HEAD whose path decodes); an upgrade attempt with that
    session is accepted;
    and a frame then sent on the new connection is forwarded as one
    datagram. *)
Theorem allowed_client_streams
    (srv : Server) (req : Request) (s : Session)
    (sock : nat) (data : Frame) (isBinary : bool) :
  reachesGate req = true ->
  isOnCorrectNetwork srv req = Some true ->
  req_session req = Some s ->
  exists res s',
    app srv req = (res, Some s') /\
    authenticated s' = true /\
    (req_method req = "GET" \/ req_method req = "HEAD" ->
     uriDecodes (req_path req) = true -> res = StaticFile) /\
    onUpgrade (Some s') = [HandleUpgrade] /\
    sent (run srv noRelay [Upgrade sock (Some s'); Message sock data isBinary])
    = [(sock, forward srv data)].
Proof.
  intros Hg Ha Hs.
  destruct (gate_allow_next srv req s Ha Hs) as (s' & Hn & Ht & _).
  assert (Hu : onUpgrade (Some s') = [HandleUpgrade]) by (simpl; now rewrite Ht).
  destruct (servePages_cases req (Some s')) as (res & E & _).
  exists res, s'.
  split; [|split; [exact Ht|split; [|split; [exact Hu|]]]].
  - unfold app. now rewrite (reachesGate_route srv req Hg), Hn, E.
  - intros Hm Hd. unfold servePages in E. rewrite Hd in E.
    destruct Hm as [Hm|Hm]; rewrite Hm in E; simpl in E; congruence.
  - unfold run. cbn [fold_left step]. rewrite Hu.
    cbn [existsb isHandleUpgrade orb]. unfold hasListener.
    cbn [connections existsb sent noRelay]. rewrite Nat.eqb_refl. reflexivity.
Qed.

Lemma allowed_client_streams_witness :
  exists res s',
    app (localServer "192.168.8.101") (plainRequest "GET" "/" "192.168.8.102")
    = (res, Some s') /\
    sent (run (localServer "192.168.8.101") noRelay
              [Upgrade 3 (Some s'); Message 3 [Byte.x2a] true])
    = [(3, forward (localServer "192.168.8.101") [Byte.x2a])].
Proof.
  destruct (allowed_client_streams
              (localServer "192.168.8.101")
              (plainRequest "GET" "/" "192.168.8.102") freshSession
              3 [Byte.x2a] true)
    as (res & s' & H1 & _ & _ & _ & H5); [reflexivity|reflexivity|reflexivity|].
  exists res, s'. split; assumption.
Defined.

(** X12.  A denied request leaves the session as it found it, so a client
    whose session was not authenticated before is also refused at the
    upgrade: the 403 opens no way to the relay. *)
Theorem denied_client_cannot_upgrade
    (srv : Server) (req : Request) (s : Session) :
  reachesGate req = true ->
  isOnCorrectNetwork srv req = Some false ->
  req_session req = Some s ->
  authenticated s = false ->
  snd (app srv req) = Some s /\
  onUpgrade (snd (app srv req)) = [SocketWrite unauthorizedLine; SocketDestroy].
Proof.
  intros Hg Hd Hs Hf.
  assert (E : snd (app srv req) = Some s).
  { unfold app. rewrite (reachesGate_route srv req Hg).
    unfold requireNetworkAccess. rewrite Hd. simpl. exact Hs. }
  split; [exact E|]. rewrite E. simpl. now rewrite Hf.
Qed.

Lemma denied_client_cannot_upgrade_witness :
  onUpgrade (snd (app (localServer "192.168.8.101")
                      (plainRequest "GET" "/" "103.45.67.89")))
  = [SocketWrite unauthorizedLine; SocketDestroy].
Proof.
  apply (denied_client_cannot_upgrade
           (localServer "192.168.8.101")
           (plainRequest "GET" "/" "103.45.67.89") freshSession); reflexivity.
Defined.

(** X13.  The admin flag of a session is set by one thing only: a POST to
    /api/admin/login whose password equals the configured admin password.
    No other request, from any address, turns it on. *)
Theorem adminAuthenticated_only_by_password
    (srv : Server) (req : Request) (s s' : Session) (res : Response) :
  req_session req = Some s ->
  adminAuthenticated s = false ->
  app srv req = (res, Some s') ->
  adminAuthenticated s' = true ->
  matchesPost "/api/admin/login" req = true /\
  req_password req = Some (admin_password (cfg srv)).
Proof.
  intros Hs Hf Happ Ht. unfold app, route in Happ.
  destruct (matchesPost "/api/login" req).
  { unfold login in Happ. rewrite Hs in Happ.
    injection Happ as _ <-. simpl in Ht. congruence. }
  destruct (matchesPost "/api/logout" req).
  { unfold logout in Happ. rewrite Hs in Happ. discriminate. }
  destruct (matchesGet "/api/auth-status" req).
  { unfold authStatus in Happ. rewrite Hs in Happ. congruence. }
  destruct (matchesPost "/api/admin/login" req).
  { unfold adminLogin in Happ.
    destruct (Js.strictEq _ _) eqn:E.
    - apply strictEq_true in E. auto.
    - rewrite Hs in Happ. congruence. }
  destruct (matchesGet "/api/admin/qr-code" req).
  { unfold adminQrCode in Happ. rewrite Hs, Hf in Happ. congruence. }
  destruct (matchesGet "/health" req).
  { rewrite Hs in Happ. congruence. }
  destruct (existsb _ redirectRoutes).
  { rewrite Hs in Happ. congruence. }
  unfold networkValidation in Happ.
  destruct (_ || _).
  { destruct (servePages_cases req (req_session req)) as (r & E & _).
    rewrite E, Hs in Happ. congruence. }
  unfold requireNetworkAccess in Happ.
  destruct (isOnCorrectNetwork srv req) as [[|]|].
  - rewrite Hs in Happ.
    destruct (negb (authenticated s));
      match type of Happ with
      | context [servePages req ?x] =>
          destruct (servePages_cases req x) as (r & E & _); rewrite E in Happ
      end;
      injection Happ as _ <-; simpl in Ht; congruence.
  - rewrite Hs in Happ. congruence.
  - rewrite Hs in Happ. congruence.
Qed.

Lemma adminAuthenticated_only_by_password_witness :
  let req := {| req_method := "POST"; req_path := "/api/admin/login";
                req_ip := Some "103.45.67.89"; req_remoteAddress := None;
                req_protocol := None; req_host := None;
                req_password := Some "admin123";
                req_session := Some freshSession;
                req_now := "2025-01-01T00:00:00.000Z";
                req_qrRejects := fun _ => false |} in
  matchesPost "/api/admin/login" req = true /\
  req_password req = Some (admin_password (cfg (localServer "192.168.8.101"))).
Proof.
  intros req.
  apply (adminAuthenticated_only_by_password
           (localServer "192.168.8.101") req freshSession
           {| authenticated := false; connectedAt := None;
              adminAuthenticated := true |}
           (Json 200 [("success", JBool true)])); reflexivity.
Defined.

(** X14.  The WiFi password leaves the server only towards an admin
    session: a response whose JSON carries the password or a QR code is an
    answer to a request whose session has the admin flag (set with the
    admin password only).  Being on the right network is not enough, and
    not needed. *)
Theorem wifi_password_only_to_admin (srv : Server) (req : Request) :
  responseRevealsPassword (fst (app srv req)) = true ->
  matchesGet "/api/admin/qr-code" req = true /\
  exists s, req_session req = Some s /\ adminAuthenticated s = true.
Proof.
  unfold app, route.
  destruct (matchesPost "/api/login" req).
  { unfold login. destruct (req_session req); simpl; discriminate. }
  destruct (matchesPost "/api/logout" req).
  { unfold logout. destruct (req_session req); simpl; discriminate. }
  destruct (matchesGet "/api/auth-status" req).
  { unfold authStatus. destruct (req_session req); simpl; discriminate. }
  destruct (matchesPost "/api/admin/login" req).
  { unfold adminLogin. destruct (Js.strictEq _ _);
      destruct (req_session req); simpl; discriminate. }
  destruct (matchesGet "/api/admin/qr-code" req).
  { unfold adminQrCode. destruct (req_session req) as [s|]; [|simpl; discriminate].
    destruct (adminAuthenticated s) eqn:E; [|simpl; discriminate].
    intros _. split; [reflexivity|]. exists s. auto. }
  destruct (matchesGet "/health" req); [simpl; discriminate|].
  destruct (existsb _ redirectRoutes); [simpl; discriminate|].
  unfold networkValidation.
  destruct (_ || _).
  { serve_pages; simpl; discriminate. }
  unfold requireNetworkAccess.
  destruct (isOnCorrectNetwork srv req) as [[|]|]; [|simpl; discriminate..].
  destruct (req_session req) as [s|]; [|simpl; discriminate].
  destruct (negb (authenticated s)); serve_pages; simpl; discriminate.
Qed.

Lemma wifi_password_only_to_admin_witness :
  exists s,
    req_session (withSession (plainRequest "GET" "/api/admin/qr-code" "103.45.67.89")
                   (Some {| authenticated := false; connectedAt := None;
                            adminAuthenticated := true |})) = Some s /\
    adminAuthenticated s = true.
Proof.
  apply (wifi_password_only_to_admin
           (localServer "192.168.8.101")
           (withSession (plainRequest "GET" "/api/admin/qr-code" "103.45.67.89")
              (Some {| authenticated := false; connectedAt := None;
                       adminAuthenticated := true |}))).
  reflexivity.
Defined.

(** X15.  Logging out needs no network check and ends the session: a POST
    to /api/logout from any address destroys the session, the answer is
    the success message, and an upgrade attempt with what is left is
    refused. *)
Theorem logout_ends_session (srv : Server) (req : Request) (s : Session) :
  matchesPost "/api/logout" req = true ->
  req_session req = Some s ->
  app srv req = (Json 200 [("success", JBool true)], None) /\
  onUpgrade (snd (app srv req)) = [SocketWrite unauthorizedLine; SocketDestroy].
Proof.
  intros Hm Hs.
  assert (E : app srv req = (Json 200 [("success", JBool true)], None)).
  { unfold app, route.
    assert (L : matchesPost "/api/login" req = false).
    { unfold matchesPost in *. apply andb_prop in Hm as [Hp Hq]. rewrite Hp.
      unfold pathMatches.
      destruct (pathMatches_cases _ _ Hq) as [-> | ->]; reflexivity. }
    rewrite L, Hm. unfold logout. now rewrite Hs. }
  split; [exact E|]. now rewrite E.
Qed.

Lemma logout_ends_session_witness :
  app (localServer "192.168.8.101")
      (withSession (plainRequest "POST" "/api/logout" "103.45.67.89")
         (Some {| authenticated := true; connectedAt := Some "t";
                  adminAuthenticated := false |}))
  = (Json 200 [("success", JBool true)], None).
Proof.
  apply (logout_ends_session
           (localServer "192.168.8.101")
           (withSession (plainRequest "POST" "/api/logout" "103.45.67.89")
              (Some {| authenticated := true; connectedAt := Some "t";
                       adminAuthenticated := false |}))
           {| authenticated := true; connectedAt := Some "t";
              adminAuthenticated := false |}); reflexivity.
Defined.

(** X16.  The client address matters behind the gate only: for a request
    that is answered by a route registered before the network validation,
    or that is exempt from it, the response and the session afterwards are
    the same whatever transport address the request comes from. *)
Theorem ungated_routes_ignore_address
    (srv : Server) (req : Request) (ip remoteAddress : option string) :
  reachesGate req = false ->
  app srv (setClient req ip remoteAddress) = app srv req.
Proof.
  intros Hg. unfold reachesGate in Hg.
  unfold app, route, networkValidation.
  change (matchesPost "/api/login" (setClient req ip remoteAddress))
    with (matchesPost "/api/login" req).
  change (matchesPost "/api/logout" (setClient req ip remoteAddress))
    with (matchesPost "/api/logout" req).
  change (matchesGet "/api/auth-status" (setClient req ip remoteAddress))
    with (matchesGet "/api/auth-status" req).
  change (matchesPost "/api/admin/login" (setClient req ip remoteAddress))
    with (matchesPost "/api/admin/login" req).
  change (matchesGet "/api/admin/qr-code" (setClient req ip remoteAddress))
    with (matchesGet "/api/admin/qr-code" req).
  change (matchesGet "/health" (setClient req ip remoteAddress))
    with (matchesGet "/health" req).
  change (existsb (fun r => matchesGet r (setClient req ip remoteAddress)) redirectRoutes)
    with (existsb (fun r => matchesGet r req) redirectRoutes).
  change (req_path (setClient req ip remoteAddress)) with (req_path req).
  change (req_session (setClient req ip remoteAddress)) with (req_session req).
  destruct (matchesPost "/api/login" req); [reflexivity|].
  destruct (matchesPost "/api/logout" req); [reflexivity|].
  destruct (matchesGet "/api/auth-status" req); [reflexivity|].
  destruct (matchesPost "/api/admin/login" req); [reflexivity|].
  destruct (matchesGet "/api/admin/qr-code" req); [reflexivity|].
  destruct (matchesGet "/health" req); [reflexivity|].
  destruct (existsb _ redirectRoutes); [reflexivity|].
  destruct (_ || _); [reflexivity|discriminate].
Qed.

Lemma ungated_routes_ignore_address_witness :
  app (localServer "192.168.8.101")
      (setClient (plainRequest "POST" "/api/login" "192.168.8.102")
                 (Some "103.45.67.89") None)
  = app (localServer "192.168.8.101") (plainRequest "POST" "/api/login" "192.168.8.102").
Proof.
  apply (ungated_routes_ignore_address
           (localServer "192.168.8.101")
           (plainRequest "POST" "/api/login" "192.168.8.102")
           (Some "103.45.67.89") None).
  reflexivity.
Defined.

(** X17.  Every session the server marks authenticated also carries a
    [connectedAt] time: if the session of a request has that property (a
    new session has it), so has the session after the request, whatever
    the request is. *)
Theorem app_keeps_session_stamped (srv : Server) (req : Request) :
  sessionStamped (req_session req) ->
  sessionStamped (snd (app srv req)).
Proof.
  intros H. unfold app, route.
  destruct (matchesPost "/api/login" req).
  { unfold login. destruct (req_session req); simpl; [discriminate|trivial]. }
  destruct (matchesPost "/api/logout" req).
  { unfold logout. destruct (req_session req); simpl; trivial. }
  destruct (matchesGet "/api/auth-status" req).
  { unfold authStatus. destruct (req_session req); simpl; trivial. }
  destruct (matchesPost "/api/admin/login" req).
  { unfold adminLogin. destruct (Js.strictEq _ _); [|exact H].
    destruct (req_session req); simpl; trivial. }
  destruct (matchesGet "/api/admin/qr-code" req).
  { destruct (adminQrCode_session srv req) as [r E]. rewrite E. exact H. }
  destruct (matchesGet "/health" req); [exact H|].
  destruct (existsb _ redirectRoutes); [exact H|].
  unfold networkValidation.
  destruct (_ || _).
  { serve_pages; exact H. }
  unfold requireNetworkAccess.
  destruct (isOnCorrectNetwork srv req) as [[|]|]; [|exact H..].
  destruct (req_session req) as [s|]; [|exact H].
  destruct (negb (authenticated s)); serve_pages; simpl;
    try exact H; discriminate.
Qed.

Lemma app_keeps_session_stamped_witness :
  sessionStamped (snd (app (localServer "192.168.8.101")
                           (plainRequest "GET" "/" "192.168.8.102"))).
Proof.
  apply (app_keeps_session_stamped
           (localServer "192.168.8.101")
           (plainRequest "GET" "/" "192.168.8.102")).
  simpl. discriminate.
Defined.

(** X19.  Everything under /api/admin other than the two admin routes, and
    /admin.html, goes to the pages without the network check being asked:
    a GET or HEAD for such a path, from any client address, gets a page
    (the file, or index.html through the fallback route), or the 400 when
    the path does not decode, and the session is not marked authenticated
    by it. *)
Theorem admin_paths_skip_network_check (srv : Server) (req : Request) :
  req_method req = "GET" \/ req_method req = "HEAD" ->
  (Js.startsWith "/api/admin" (req_path req) = true /\
   pathMatches "/api/admin/qr-code" (req_path req) = false) \/
  req_path req = "/admin.html" ->
  app srv req
  = (if uriDecodes (req_path req) then StaticFile else BadRequest,
     req_session req).
Proof.
  intros Hm Hp.
  assert (E : route srv req = servePages req (req_session req)).
  { unfold route, matchesPost, matchesGet, redirectRoutes, networkValidation.
    destruct Hp as [[Hs Hq]|Hp].
    - rewrite Hq, Hs.
      apply startsWith_drop in Hs. remember (Js.drop _ _) as rest eqn:Hr.
      clear Hr Hq. rewrite Hs. unfold pathMatches.
      destruct Hm as [-> | ->]; reflexivity.
    - rewrite Hp. destruct Hm as [-> | ->]; reflexivity. }
  unfold app. rewrite E. unfold servePages.
  destruct (uriDecodes (req_path req)); simpl; [|reflexivity].
  destruct Hm as [-> | ->]; reflexivity.
Qed.

Lemma admin_paths_skip_network_check_witness :
  isOnCorrectNetwork (localServer "192.168.8.101")
                     (plainRequest "GET" "/api/admin/anything" "103.45.67.89")
  = Some false /\
  app (localServer "192.168.8.101")
      (plainRequest "GET" "/api/admin/anything" "103.45.67.89")
  = (StaticFile, Some freshSession) /\
  app (localServer "192.168.8.101")
      (plainRequest "GET" "/api/admin/%" "103.45.67.89")
  = (BadRequest, Some freshSession).
Proof.
  split; [reflexivity|]. split.
  - apply (admin_paths_skip_network_check
             (localServer "192.168.8.101")
             (plainRequest "GET" "/api/admin/anything" "103.45.67.89")).
    + left. reflexivity.
    + left. split; reflexivity.
  - apply (admin_paths_skip_network_check
             (localServer "192.168.8.101")
             (plainRequest "GET" "/api/admin/%" "103.45.67.89")).
    + left. reflexivity.
    + left. split; reflexivity.
Defined.

(* ================================================================== *)
(** ** More about the relay *)
(* ================================================================== *)

Section RelayRuns.

Variable srv : Server.

Lemma hasListener_close (sock : nat) (r : Relay) :
  hasListener sock (step srv r (Close sock)) = false.
Proof.
  unfold hasListener. simpl.
  induction (connections r) as [|k conns IH]; simpl; [reflexivity|].
  destruct (Nat.eqb sock k) eqn:E; simpl; [exact IH|].
  now rewrite E, IH.
Qed.

(** An event of another socket changes nothing that [sock] can see. *)
Lemma step_other_socket (sock : nat) (r : Relay) (e : Event) :
  concerns sock e = false -> agreeOn sock (step srv r e) r.
Proof.
  intros Hc. destruct r as [conns log]. unfold agreeOn.
  destruct e as [k sess|k data b|k|k]; simpl in *.
  - destruct (existsb isHandleUpgrade (onUpgrade sess)); [|now split].
    unfold hasListener. simpl. now rewrite Hc.
  - destruct (hasListener k _); [|now split].
    split; [reflexivity|]. rewrite sentBy_snoc, Hc. apply app_nil_r.
  - split; [|reflexivity]. unfold hasListener. simpl.
    apply hasListener_filter. intros ->. now rewrite Nat.eqb_refl in Hc.
  - now split.
Qed.

(** An event of [sock] itself acts alike on two states that agree on it. *)
Lemma step_same_socket (sock : nat) (r1 r2 : Relay) (e : Event) :
  concerns sock e = true ->
  agreeOn sock r1 r2 -> agreeOn sock (step srv r1 e) (step srv r2 e).
Proof.
  intros Hc [Hl Hs].
  destruct r1 as [c1 l1], r2 as [c2 l2]. unfold agreeOn.
  destruct e as [k sess|k data b|k|k]; simpl in Hc;
    apply Nat.eqb_eq in Hc; subst k.
  - simpl. destruct (existsb isHandleUpgrade (onUpgrade sess)); [|now split].
    unfold hasListener. simpl. rewrite Nat.eqb_refl. now split.
  - simpl. rewrite <- Hl.
    destruct (hasListener sock {| connections := c1; sent := l1 |}) eqn:E.
    + split; [unfold hasListener in *; simpl in *; congruence|].
      rewrite !sentBy_snoc. now rewrite Hs.
    + split; [congruence|exact Hs].
  - split; [|exact Hs]. now rewrite !hasListener_close.
  - now split.
Qed.

Lemma run_agreeOn (sock : nat) (events : list Event) (r1 r2 : Relay) :
  agreeOn sock r1 r2 ->
  agreeOn sock (run srv r1 events)
               (run srv r2 (filter (concerns sock) events)).
Proof.
  revert r1 r2. induction events as [|e events IH]; intros r1 r2 H.
  - exact H.
  - rewrite run_cons. simpl filter.
    destruct (concerns sock e) eqn:Hc.
    + rewrite run_cons. apply IH. now apply step_same_socket.
    + apply IH. destruct (step_other_socket sock r1 e Hc) as [A B].
      destruct H as [Hl Hs]. split; congruence.
Qed.

Lemma run_app (r : Relay) (a b : list Event) :
  run srv r (a ++ b) = run srv (run srv r a) b.
Proof. unfold run. apply fold_left_app. Qed.

Lemma run_sent_grows (events : list Event) (r : Relay) :
  exists more,
    sent (run srv r events) = sent r ++ more /\
    length more <= countMessages events /\
    Forall (fun p => snd p = forward srv (payload (snd p))) more.
Proof.
  revert r. induction events as [|e events IH]; intros r.
  - exists []. simpl. rewrite app_nil_r. auto.
  - rewrite run_cons. destruct (IH (step srv r e)) as (more & Hs & Hl & Hf).
    destruct e as [k sess|k data b|k|k]; simpl countMessages.
    + exists more. rewrite Hs. simpl.
      destruct (existsb isHandleUpgrade (onUpgrade sess)); auto.
    + cbn [step] in Hs |- *. destruct (hasListener k r).
      * exists ((k, forward srv data) :: more). split; [|split].
        -- rewrite Hs. cbn [sent]. now rewrite <- app_assoc.
        -- simpl. lia.
        -- constructor; [reflexivity|exact Hf].
      * exists more. split; [exact Hs|split; [lia|exact Hf]].
    + exists more. rewrite Hs. auto.
    + exists more. rewrite Hs. auto.
Qed.

End RelayRuns.

(** X20.  Connections do not disturb each other: what the relay sends for
    one socket, and whether that socket still has its listener, is decided
    by the events of that socket alone.  Dropping every event of the other
    sockets (their frames, closes, errors, upgrades) from a run changes
    neither. *)
Theorem relay_connections_independent
    (srv : Server) (r : Relay) (sock : nat) (events : list Event) :
  sentBy sock (run srv r events)
  = sentBy sock (run srv r (filter (concerns sock) events)) /\
  hasListener sock (run srv r events)
  = hasListener sock (run srv r (filter (concerns sock) events)).
Proof.
  destruct (run_agreeOn srv sock events r r) as [A B]; [now split|].
  now split.
Qed.

(** X22.  The relay only ever adds to what it has sent, at most one
    datagram per 'message' event and none for any other event, and every
    datagram it adds goes to the one address and port fixed at startup:
    no run of events makes it send anywhere else. *)
Theorem relay_sends_only_to_receiver
    (c : Config) (interfaces : NetworkInterfaces)
    (r : Relay) (events : list Event) :
  let srv := startServer c interfaces in
  exists more,
    sent (run srv r events) = sent r ++ more /\
    length more <= countMessages events /\
    Forall (fun p => port (snd p) = server_udpPort c /\
                     address_to (snd p) = server_esp32Ip c) more.
Proof.
  intros srv.
  destruct (run_sent_grows srv events r) as (more & Hs & Hl & Hf).
  exists more. repeat split; auto.
  apply Forall_forall. intros p Hin.
  rewrite Forall_forall in Hf. rewrite (Hf p Hin). split; reflexivity.
Qed.

(* ================================================================== *)
(** ** The certificate generator *)
(* ================================================================== *)

(** X23.  Certificates that exist are kept: when key.pem and cert.pem are
    both there, [generateCertificate] answers true and writes nothing,
    whether or not openssl would run. *)
Theorem generateCertificate_keeps_existing
    (dirname : string) (w : GenerateCert.World) (f : GenerateCert.Files)
    (key cert : string) :
  GenerateCert.certsDir f = true ->
  GenerateCert.keyPem f = Some key ->
  GenerateCert.certPem f = Some cert ->
  GenerateCert.generateCertificate dirname w f = (true, f).
Proof.
  intros Hd Hk Hc. unfold GenerateCert.generateCertificate.
  rewrite Hd. simpl.
  unfold GenerateCert.existsKey, GenerateCert.existsCert.
  now rewrite Hd, Hk, Hc.
Qed.

Lemma generateCertificate_keeps_existing_witness :
  GenerateCert.generateCertificate "/srv/server"
    {| GenerateCert.mkdirSync := None;
       GenerateCert.openssl := GenerateCert.ExecDone "new key" "new cert";
       GenerateCert.generateKeyPairSync := None;
       GenerateCert.writeKey := true;
       GenerateCert.writeCert := true |}
    {| GenerateCert.certsDir := true;
       GenerateCert.keyPem := Some "old key";
       GenerateCert.certPem := Some "old cert" |}
  = (true, {| GenerateCert.certsDir := true;
              GenerateCert.keyPem := Some "old key";
              GenerateCert.certPem := Some "old cert" |}).
Proof.
  apply (generateCertificate_keeps_existing "/srv/server" _ _ "old key" "old cert");
    reflexivity.
Defined.

(** X24.  A failure of the openssl command always ends in the fallback,
    never in the plain answer false: the message of the error contains the
    command line, and with it the word openssl.  The answer is then the
    fallback's: when the key pair is made and both writes go through, the
    private key is in key.pem, the public key (not a certificate) is in
    cert.pem, and the answer is true. *)
Theorem generateCertificate_openssl_failure
    (dirname : string) (w : GenerateCert.World) (f : GenerateCert.Files)
    (stderr : string) :
  GenerateCert.existsKey f && GenerateCert.existsCert f = false ->
  GenerateCert.certsDir f = true \/ GenerateCert.mkdirSync w = None ->
  GenerateCert.openssl w = GenerateCert.ExecFailed stderr ->
  let f1 := if GenerateCert.certsDir f then f
            else {| GenerateCert.certsDir := true;
                    GenerateCert.keyPem := None;
                    GenerateCert.certPem := None |} in
  GenerateCert.generateCertificate dirname w f = GenerateCert.createSimpleCert w f1 /\
  (forall publicKey privateKey,
      GenerateCert.generateKeyPairSync w = Some (publicKey, privateKey) ->
      GenerateCert.writeKey w = true ->
      GenerateCert.writeCert w = true ->
      GenerateCert.generateCertificate dirname w f
      = (true, {| GenerateCert.certsDir := true;
                  GenerateCert.keyPem := Some privateKey;
                  GenerateCert.certPem := Some publicKey |})).
Proof.
  intros He Hd Ho f1.
  assert (I : GenerateCert.includes "openssl"
                (GenerateCert.execErrorMessage (GenerateCert.command dirname) stderr)
              = true) by reflexivity.
  assert (G : GenerateCert.generateCertificate dirname w f
              = GenerateCert.createSimpleCert w f1).
  { unfold GenerateCert.generateCertificate, f1.
    destruct (GenerateCert.certsDir f) eqn:E; simpl.
    - rewrite He, Ho. unfold GenerateCert.onError. now rewrite I.
    - destruct Hd as [Hd|Hd]; [discriminate|]. rewrite Hd. simpl.
      rewrite Ho. unfold GenerateCert.onError. now rewrite I. }
  split; [exact G|].
  intros publicKey privateKey Hk Hwk Hwc. rewrite G.
  unfold GenerateCert.createSimpleCert. rewrite Hk, Hwk, Hwc.
  unfold f1. destruct (GenerateCert.certsDir f) eqn:E; simpl; [|reflexivity].
  now rewrite E.
Qed.

Lemma generateCertificate_openssl_failure_witness :
  GenerateCert.generateCertificate "/srv/server"
    {| GenerateCert.mkdirSync := None;
       GenerateCert.openssl := GenerateCert.ExecFailed "unable to write random state";
       GenerateCert.generateKeyPairSync := Some ("PUBLIC", "PRIVATE");
       GenerateCert.writeKey := true;
       GenerateCert.writeCert := true |}
    {| GenerateCert.certsDir := false;
       GenerateCert.keyPem := None;
       GenerateCert.certPem := None |}
  = (true, {| GenerateCert.certsDir := true;
              GenerateCert.keyPem := Some "PRIVATE";
              GenerateCert.certPem := Some "PUBLIC" |}).
Proof.
  apply (generateCertificate_openssl_failure "/srv/server" _ _
           "unable to write random state"); try reflexivity.
  right. reflexivity.
Defined.

(** X27.  The authenticated flag is read alike in three places:
    [requireAuth] passes a request on exactly when the upgrade gate would
    accept its session, and /api/auth-status reports true exactly then. *)
Theorem session_flag_read_alike (srv : Server) (req : Request) :
  ((exists sess, requireAuth req = Next sess) <->
   onUpgrade (req_session req) = [HandleUpgrade]) /\
  (matchesGet "/api/auth-status" req = true ->
   (fst (app srv req) = Json 200 [("authenticated", JBool true)] <->
    onUpgrade (req_session req) = [HandleUpgrade])).
Proof.
  split.
  - unfold requireAuth, onUpgrade.
    destruct (req_session req) as [s|].
    + destruct (authenticated s); simpl; split.
      * reflexivity.
      * intros _. eexists. reflexivity.
      * intros [sess H]. discriminate.
      * discriminate.
    + split; [intros [sess H]|]; discriminate.
  - intros Hm.
    assert (P : forall r, matchesPost r req = false).
    { intros r. unfold matchesGet, matchesPost in *.
      apply andb_prop in Hm as [Hg _]. apply orb_prop in Hg as [Hg|Hg];
        apply String.eqb_eq in Hg; rewrite Hg; reflexivity. }
    unfold app, route. rewrite !P, Hm. unfold authStatus, onUpgrade.
    destruct (req_session req) as [s|]; simpl.
    + destruct (authenticated s); simpl; split; try reflexivity; discriminate.
    + split; discriminate.
Qed.

Lemma session_flag_read_alike_witness :
  fst (app (localServer "192.168.8.101")
           (withSession (plainRequest "GET" "/api/auth-status" "103.45.67.89")
              (Some {| authenticated := true; connectedAt := Some "t";
                       adminAuthenticated := false |})))
  = Json 200 [("authenticated", JBool true)].
Proof.
  apply (session_flag_read_alike
           (localServer "192.168.8.101")
           (withSession (plainRequest "GET" "/api/auth-status" "103.45.67.89")
              (Some {| authenticated := true; connectedAt := Some "t";
                       adminAuthenticated := false |}))); reflexivity.
Defined.

(* ================================================================== *)
(** ** Where datagrams come from *)
(* ================================================================== *)

Section Provenance.

Variable srv : Server.

Lemma accepted_upgrade (sess : option Session) :
  existsb isHandleUpgrade (onUpgrade sess) = true ->
  exists s, sess = Some s /\ authenticated s = true.
Proof.
  destruct sess as [s|]; simpl; [|discriminate].
  destruct (authenticated s) eqn:E; simpl; [|discriminate].
  intros _. exists s. auto.
Qed.

Lemma hasListener_In (sock : nat) (r : Relay) :
  hasListener sock r = true <-> In sock (connections r).
Proof.
  unfold hasListener. rewrite existsb_exists. split.
  - intros (k & Hin & Hk). apply Nat.eqb_eq in Hk. now subst.
  - intros H. exists sock. split; [exact H|apply Nat.eqb_refl].
Qed.

(** One step: listeners and senders are those from before, or the socket
    of an accepted upgrade. *)
Lemma step_provenance (P : nat -> Prop) (r : Relay) (e : Event) :
  (forall k, In k (connections r) -> P k) ->
  (forall p, In p (sent r) -> P (fst p)) ->
  (forall k, In k (connections (step srv r e)) -> P k \/ upgradedIn k [e]) /\
  (forall p, In p (sent (step srv r e)) -> P (fst p) \/ upgradedIn (fst p) [e]).
Proof.
  intros Hc Hs. destruct e as [k sess|k data b|k|k]; simpl.
  - destruct (existsb isHandleUpgrade (onUpgrade sess)) eqn:E; simpl.
    + apply accepted_upgrade in E as (s & -> & Ha). split.
      * intros j [<-|Hj]; [right|left; auto].
        exists s. split; [now left|exact Ha].
      * intros p Hp. left. auto.
    + split; intros; left; auto.
  - destruct (hasListener k r) eqn:E; simpl.
    + split; [intros; left; auto|].
      intros p Hp. left. apply in_app_or in Hp as [Hp|[<-|[]]]; [auto|].
      simpl. apply Hc. now apply hasListener_In.
    + split; intros; left; auto.
  - split; [|intros; left; auto].
    intros j Hj. left. apply filter_In in Hj as [Hj _]. auto.
  - split; intros; left; auto.
Qed.

Lemma upgradedIn_cons (k : nat) (e : Event) (events : list Event) :
  upgradedIn k [e] \/ upgradedIn k events -> upgradedIn k (e :: events).
Proof.
  intros [(s & [H|[]] & Ha)|(s & H & Ha)]; exists s; split; auto.
  - now left.
  - now right.
Qed.

Lemma run_provenance (events : list Event) (P : nat -> Prop) (r : Relay) :
  (forall k, In k (connections r) -> P k) ->
  (forall p, In p (sent r) -> P (fst p)) ->
  (forall k, In k (connections (run srv r events)) -> P k \/ upgradedIn k events) /\
  (forall p, In p (sent (run srv r events)) -> P (fst p) \/ upgradedIn (fst p) events).
Proof.
  revert P r. induction events as [|e events IH]; intros P r Hc Hs.
  - split; intros; left; auto.
  - rewrite run_cons.
    destruct (step_provenance P r e Hc Hs) as [Hc1 Hs1].
    destruct (IH (fun k => P k \/ upgradedIn k [e]) (step srv r e) Hc1 Hs1)
      as [Hc2 Hs2].
    split.
    + intros k Hk. destruct (Hc2 k Hk) as [[H|H]|H]; [now left|right..];
        apply upgradedIn_cons; auto.
    + intros p Hp. destruct (Hs2 p Hp) as [[H|H]|H]; [now left|right..];
        apply upgradedIn_cons; auto.
Qed.

End Provenance.

(** X28.  Every datagram has an authenticated upgrade behind it: in any
    run of events from the start of the server, each datagram sent was
    sent for a socket that, in that run, made an upgrade attempt with an
    authenticated session.  Nothing is forwarded for any other socket. *)
Theorem datagrams_come_from_authenticated_upgrades
    (srv : Server) (events : list Event) (sock : nat) (d : Datagram) :
  In (sock, d) (sent (run srv noRelay events)) ->
  upgradedIn sock events.
Proof.
  intros H.
  destruct (run_provenance srv events (fun _ => False) noRelay) as [_ Hs].
  - intros k [].
  - intros p [].
  - destruct (Hs (sock, d) H) as [[]|Hu]. exact Hu.
Qed.

Lemma datagrams_come_from_authenticated_upgrades_witness :
  upgradedIn 4 [Upgrade 4 (Some {| authenticated := true; connectedAt := None;
                                   adminAuthenticated := false |});
                Message 4 [Byte.x07] true].
Proof.
  apply (datagrams_come_from_authenticated_upgrades
           (localServer "192.168.8.101") _ 4
           (forward (localServer "192.168.8.101") [Byte.x07])).
  simpl. left. reflexivity.
Defined.

(** X29.  In public mode nobody is turned away: whatever the request, the
    answer is never the 403. *)
Theorem public_mode_never_forbids (srv : Server) (req : Request) :
  publicMode srv ->
  isForbidden (fst (app srv req)) = false.
Proof.
  intros Hm. unfold app, route.
  destruct (matchesPost "/api/login" req).
  { unfold login. destruct (req_session req); reflexivity. }
  destruct (matchesPost "/api/logout" req).
  { unfold logout. destruct (req_session req); reflexivity. }
  destruct (matchesGet "/api/auth-status" req).
  { unfold authStatus. destruct (req_session req); reflexivity. }
  destruct (matchesPost "/api/admin/login" req).
  { unfold adminLogin. destruct (Js.strictEq _ _);
      destruct (req_session req); reflexivity. }
  destruct (matchesGet "/api/admin/qr-code" req).
  { unfold adminQrCode. destruct (req_session req) as [s|]; [|reflexivity].
    destruct (adminAuthenticated s); [|reflexivity].
    destruct (_ || _); reflexivity. }
  destruct (matchesGet "/health" req); [reflexivity|].
  destruct (existsb _ redirectRoutes); [reflexivity|].
  unfold networkValidation.
  destruct (_ || _).
  { serve_pages; reflexivity. }
  unfold requireNetworkAccess, isOnCorrectNetwork, publicMode in *.
  rewrite Hm. simpl.
  destruct (req_session req) as [s|]; [|reflexivity].
  destruct (negb (authenticated s)); serve_pages; reflexivity.
Qed.

Lemma public_mode_never_forbids_witness :
  isForbidden (fst (app (publicServer "192.168.8.101")
                        (plainRequest "GET" "/" "103.45.67.89"))) = false.
Proof.
  apply (public_mode_never_forbids (publicServer "192.168.8.101")
           (plainRequest "GET" "/" "103.45.67.89")).
  reflexivity.
Defined.
